(** * Verification of the scoring, screening and allocation engine of
      [trading_system.py]

    The Python class [TradingSystem] is embedded function by function.
    Python floats are IEEE binary64 numbers and are modelled by Rocq's
    primitive [float], so that every arithmetic step of the source is
    evaluated with the rounding the interpreter performs.  Python integers
    that the source returns from the bucket functions are modelled by [Z]
    and converted to [float] where the source mixes them with floats.
    Dictionaries keyed by strings are [gmap string _]; dictionaries whose
    insertion order is observable are association lists. *)

From Stdlib Require Import ZArith List Floats Lia Bool QArith Qabs Sorting.Sorted
  Sorting.Permutation.
From stdpp Require Import base strings gmap.
Import ListNotations.

#[local] Set Warnings "-inexact-float".
#[local] Open Scope Z_scope.

(** ** Python numbers *)

Module Py.

(** An [int] used in float arithmetic: the float of the same value. *)
Definition Z2f (z : Z) : float := PrimFloat.of_uint63 (Uint63.of_Z z).

(** Python comparison operators on floats; every one of them is [False]
    when an operand is NaN. *)
Definition le (a b : float) : bool := (a <=? b)%float.
Definition lt (a b : float) : bool := (a <? b)%float.
Definition ge (a b : float) : bool := (b <=? a)%float.
Definition gt (a b : float) : bool := (b <? a)%float.

(** [min(a, b)]: the first argument unless the second is smaller. *)
Definition min (a b : float) : float := if lt b a then b else a.

(** [max(a, b)]: the first argument unless the second is larger. *)
Definition max (a b : float) : float := if gt b a then b else a.

(** [d.get(k, dflt)] on a dictionary of floats. *)
Definition get (d : gmap string float) (k : string) (dflt : float) : float :=
  match d !! k with
  | Some v => v
  | None => dflt
  end.

End Py.

(** ** Fundamental scorer (lines 124-307) *)

Definition _score_pe_ratio (pe_ratio : float) : Z :=
  if Py.le pe_ratio 0 || Py.gt pe_ratio 100 then 0
  else if Py.le pe_ratio 15 then 100
  else if Py.le pe_ratio 25 then 80
  else if Py.le pe_ratio 35 then 60
  else if Py.le pe_ratio 50 then 40
  else 20.

Definition _score_price_to_book (pb_ratio : float) : Z :=
  if Py.le pb_ratio 0 || Py.gt pb_ratio 10 then 0
  else if Py.le pb_ratio 1 then 100
  else if Py.le pb_ratio 2 then 80
  else if Py.le pb_ratio 3 then 60
  else if Py.le pb_ratio 5 then 40
  else 20.

Definition _score_debt_to_equity (debt_equity : float) : Z :=
  if Py.lt debt_equity 0 then 0
  else if Py.le debt_equity 0.3 then 100
  else if Py.le debt_equity 0.5 then 80
  else if Py.le debt_equity 1.0 then 60
  else if Py.le debt_equity 2.0 then 40
  else 20.

Definition _score_current_ratio (current_ratio : float) : Z :=
  if Py.le current_ratio 0 then 0
  else if Py.ge current_ratio 2.0 then 100
  else if Py.ge current_ratio 1.5 then 80
  else if Py.ge current_ratio 1.0 then 60
  else 20.

Definition _score_roe (roe : float) : Z :=
  if Py.le roe 0 then 0
  else if Py.ge roe 0.20 then 100
  else if Py.ge roe 0.15 then 80
  else if Py.ge roe 0.10 then 60
  else if Py.ge roe 0.05 then 40
  else 20.

Definition _score_roa (roa : float) : Z :=
  if Py.le roa 0 then 0
  else if Py.ge roa 0.10 then 100
  else if Py.ge roa 0.07 then 80
  else if Py.ge roa 0.05 then 60
  else if Py.ge roa 0.03 then 40
  else 20.

Definition _score_profit_margin (margin : float) : Z :=
  if Py.le margin 0 then 0
  else if Py.ge margin 0.20 then 100
  else if Py.ge margin 0.15 then 80
  else if Py.ge margin 0.10 then 60
  else if Py.ge margin 0.05 then 40
  else 20.

Definition _score_growth (growth_rate : float) : Z :=
  if Py.le growth_rate 0 then 0
  else if Py.ge growth_rate 0.20 then 100
  else if Py.ge growth_rate 0.15 then 80
  else if Py.ge growth_rate 0.10 then 60
  else if Py.ge growth_rate 0.05 then 40
  else 20.

Definition _score_beta (beta : float) : Z :=
  if Py.le beta 0 then 50
  else if Py.le 0.8 beta && Py.le beta 1.2 then 100
  else if Py.le 0.6 beta && Py.le beta 1.4 then 80
  else if Py.le 0.4 beta && Py.le beta 1.6 then 60
  else 40.

(** The [weights] dictionary of [fundamental_score]. *)
Definition fundamental_weights : gmap string float :=
  <["valuation" := 0.25%float]>
  (<["financial_health" := 0.25%float]>
  (<["profitability" := 0.25%float]>
  (<["growth" := 0.15%float]>
  (<["risk" := 0.10%float]> ∅)))).

(** [fundamental_score]: the body of the [try] block cannot raise on a
    dictionary of floats (every bucket function is total on floats and the
    divisors are the literals 2 and 3), so the handler is never entered and
    the function is the straight-line code below.  The result is the pair
    [(min(score, 100), scores)]. *)
Definition fundamental_score (fundamental_data : gmap string float)
  : float * gmap string float :=
  let weights := fundamental_weights in
  let w k := Py.get weights k 0 in
  let score := 0%float in
  let scores : gmap string float := ∅ in
  (* valuation *)
  let pe_score := _score_pe_ratio (Py.get fundamental_data "pe_ratio" 0) in
  let pb_score := _score_price_to_book (Py.get fundamental_data "price_to_book" 0) in
  let valuation_score := (Py.Z2f (pe_score + pb_score) / 2 * w "valuation")%float in
  let scores := <["valuation" := valuation_score]> scores in
  let score := (score + valuation_score)%float in
  (* financial health *)
  let debt_score := _score_debt_to_equity (Py.get fundamental_data "debt_to_equity" 0) in
  let current_ratio_score := _score_current_ratio (Py.get fundamental_data "current_ratio" 0) in
  let health_score := (Py.Z2f (debt_score + current_ratio_score) / 2 * w "financial_health")%float in
  let scores := <["financial_health" := health_score]> scores in
  let score := (score + health_score)%float in
  (* profitability *)
  let roe_score := _score_roe (Py.get fundamental_data "roe" 0) in
  let roa_score := _score_roa (Py.get fundamental_data "roa" 0) in
  let margin_score := _score_profit_margin (Py.get fundamental_data "profit_margins" 0) in
  let profitability_score :=
    (Py.Z2f (roe_score + roa_score + margin_score) / 3 * w "profitability")%float in
  let scores := <["profitability" := profitability_score]> scores in
  let score := (score + profitability_score)%float in
  (* growth *)
  let revenue_growth_score := _score_growth (Py.get fundamental_data "revenue_growth" 0) in
  let earnings_growth_score := _score_growth (Py.get fundamental_data "earnings_growth" 0) in
  let growth_score :=
    (Py.Z2f (revenue_growth_score + earnings_growth_score) / 2 * w "growth")%float in
  let scores := <["growth" := growth_score]> scores in
  let score := (score + growth_score)%float in
  (* risk *)
  let beta_score := _score_beta (Py.get fundamental_data "beta" 0) in
  let risk_score := (Py.Z2f beta_score * w "risk")%float in
  let scores := <["risk" := risk_score]> scores in
  let score := (score + risk_score)%float in
  (Py.min score 100, scores).

(** The snapshot in which every metric is zero. *)
Definition zero_metrics : gmap string float :=
  list_to_map
    (map (fun k => (k, 0%float))
       ["market_cap"; "pe_ratio"; "forward_pe"; "price_to_book"; "debt_to_equity";
        "current_ratio"; "roe"; "roa"; "profit_margins"; "revenue_growth";
        "earnings_growth"; "beta"; "dividend_yield"; "volume"; "avg_volume"]).


(** ** Exceptions and the state of a [try] block *)

Inductive exn : Type :=
| KeyError (key : string)
| IndexError
| ValueError (msg : string)
| LibraryError (what : string).

Inductive result (A : Type) : Type :=
| Ok (a : A)
| Raise (e : exn).

Arguments Ok {A} a.
Arguments Raise {A} e.

(** Statements of a [try] block: they read and update local state [S] and
    may raise.  What was assigned before an exception stays assigned. *)
Definition M (S A : Type) : Type := S -> result A * S.

Definition ret {S A} (a : A) : M S A := fun s => (Ok a, s).

Definition bind {S A B} (m : M S A) (k : A -> M S B) : M S B :=
  fun s =>
    match m s with
    | (Ok a, s') => k a s'
    | (Raise e, s') => (Raise e, s')
    end.

Definition lift {S A} (r : result A) : M S A := fun s => (r, s).

Definition modify {S} (f : S -> S) : M S unit := fun s => (Ok tt, f s).

Notation "x <- m ;; k" := (bind m (fun x => k))
  (at level 100, m at next level, right associativity).
Notation "m ;;; k" := (bind m (fun _ => k))
  (at level 100, right associativity).

(** [try: body / except Exception: print(...)]: the state the body left,
    whether it completed or raised. *)
Definition try_except {S} (body : M S unit) (s : S) : S := snd (body s).

(** ** pandas: labelled series and frames *)

(** A [Series]: row labels (the timestamps of the bars) and values. *)
Record Series : Type := mkSeries {
  s_index : list Z;
  s_values : list float
}.

(** A [DataFrame]: row labels and named columns of values. *)
Record DataFrame : Type := mkDataFrame {
  df_index : list Z;
  df_columns : gmap string (list float)
}.

(** [pd.DataFrame()]. *)
Definition empty_frame : DataFrame := mkDataFrame [] ∅.

(** [len(data)]: the number of rows. *)
Definition df_len (data : DataFrame) : Z := Z.of_nat (length (df_index data)).

(** [data.empty]: no row or no column. *)
Definition df_empty (data : DataFrame) : bool :=
  (df_len data =? 0) || bool_decide (df_columns data = ∅).

(** [data[col]]: [KeyError] when the column is missing. *)
Definition getitem (data : DataFrame) (col : string) : result Series :=
  match df_columns data !! col with
  | Some v => Ok (mkSeries (df_index data) v)
  | None => Raise (KeyError col)
  end.

(** [df[col] = values]. *)
Definition setitem (df : DataFrame) (col : string) (v : list float) : DataFrame :=
  mkDataFrame (df_index df) (<[col := v]> (df_columns df)).

(** The slice [l[-a:-b]] of a list ([b = 0] for [l[-a:]]): from position
    [max (len - a) 0] to position [max (len - b) 0]. *)
Definition slice_from_end {A} (a b : nat) (l : list A) : list A :=
  let start := (length l - a)%nat in
  let stop := (length l - b)%nat in
  firstn (stop - start) (skipn start l).

(** [s.iloc[-a:-b]], labels included. *)
Definition iloc_slice (a b : nat) (s : Series) : Series :=
  mkSeries (slice_from_end a b (s_index s)) (slice_from_end a b (s_values s)).

(** [s.iloc[-1]]: [IndexError] on an empty series. *)
Definition iloc_last (s : Series) : result float :=
  match rev (s_values s) with
  | v :: _ => Ok v
  | [] => Raise IndexError
  end.

(** [data[col].iloc[-1]]. *)
Definition last_of (data : DataFrame) (col : string) : result float :=
  match getitem data col with
  | Ok s => iloc_last s
  | Raise e => Raise e
  end.

(** Element-wise [a > b] of two value lists. *)
Fixpoint gt_values (a b : list float) : list bool :=
  match a, b with
  | x :: a', y :: b' => Py.gt x y :: gt_values a' b'
  | _, _ => []
  end.

(** [s1 > s2] on two [Series]: pandas compares two series only when their
    row labels are identical, and raises [ValueError] otherwise
    ([Series._cmp_method]: "Can only compare identically-labeled Series
    objects"). *)
Definition series_gt (s1 s2 : Series) : result (list bool) :=
  if bool_decide (s_index s1 = s_index s2)
  then Ok (gt_values (s_values s1) (s_values s2))
  else Raise (ValueError "Can only compare identically-labeled Series objects").

(** [.sum()] of a boolean series: the number of [True]. *)
Definition count_true (l : list bool) : Z :=
  Z.of_nat (length (List.filter (fun b => b) l)).

(** The numerical reductions of pandas and numpy that the source calls;
    their summation order is the library's and is left open. *)
Record Numerics : Type := mkNumerics {
  rolling_mean : nat -> list float -> list float;  (* s.rolling(w).mean() *)
  pct_change : list float -> list float;           (* s.pct_change() *)
  series_mean : list float -> float;               (* s.mean() *)
  series_min : list float -> float;                (* s.min() *)
  series_max : list float -> float;                (* s.max() *)
  np_mean : list float -> float                    (* np.mean(list) *)
}.

(** The indicator functions of the [ta] package; each may raise. *)
Record TA : Type := mkTA {
  sma_indicator : list float -> nat -> result (list float);
  ema_indicator : list float -> nat -> result (list float);
  rsi : list float -> nat -> result (list float);
  macd : list float -> result (list float);
  macd_signal : list float -> result (list float);
  macd_diff : list float -> result (list float);
  bollinger_hband : list float -> result (list float);
  bollinger_lband : list float -> result (list float);
  bollinger_mavg : list float -> result (list float);
  volume_sma : list float -> list float -> result (list float);
  on_balance_volume : list float -> list float -> result (list float);
  average_true_range : list float -> list float -> list float -> result (list float)
}.

(** The Yahoo Finance client: [Ticker(symbol).history(period)] and
    [Ticker(symbol).info]; each may raise. *)
Record YFinance : Type := mkYFinance {
  history : string -> string -> result DataFrame;
  info : string -> result (gmap string float)
}.

(** ** The engine: [class TradingSystem] *)

Inductive Recommendation : Type :=
| STRONG_BUY | BUY | HOLD | SELL | STRONG_SELL.

Inductive SignalType : Type := SIG_BUY | SIG_SELL.

(** A trading signal: the dictionary with keys [type], [indicator],
    [strength] and [reason]. *)
Record Signal : Type := mkSignal {
  sig_type : SignalType;
  sig_indicator : string;
  sig_strength : string;
  sig_reason : string
}.

(** The [analysis] dictionary of [analyze_stock].  [technical_data] is
    [None] while it holds the initial [{}]; the two breakdown keys are
    absent until the scores are computed. *)
Record Analysis : Type := mkAnalysis {
  symbol : string;
  fundamental_data : gmap string float;
  technical_data : option DataFrame;
  a_fundamental_score : float;
  a_technical_score : float;
  overall_score : float;
  recommendation : Recommendation;
  signals : list Signal;
  fundamental_breakdown : option (gmap string float);
  technical_breakdown : option (gmap string float)
}.

(** One entry of the sector-analysis dictionary. *)
Record SectorProfile : Type := mkSectorProfile {
  etf : string;
  current_price : float;
  return_6mo : float;
  volatility : float;
  sp_technical_score : float;
  momentum : float
}.

Inductive RiskLevel : Type := Moderate | High | Low.

(** The dictionary returned by [generate_portfolio_recommendations];
    [risk_assessment] is [None] while it holds the initial [{}]. *)
Record Recommendations : Type := mkRecommendations {
  top_stocks : list Analysis;
  sector_allocation : list (string * float);
  risk_assessment : option (float * RiskLevel);
  rebalancing_suggestions : list string
}.

(** *** Insertion-ordered dictionaries *)

(** [d[k] = v]: replaces the value in place when [k] is present, appends
    the entry otherwise. *)
Fixpoint dict_set {V} (d : list (string * V)) (k : string) (v : V) : list (string * V) :=
  match d with
  | [] => [(k, v)]
  | (k', v') :: d' =>
      if String.eqb k' k then (k', v) :: d' else (k', v') :: dict_set d' k v
  end.

(** [d[k]], for a key that is present. *)
Fixpoint dict_get {V} (d : list (string * V)) (k : string) : option V :=
  match d with
  | [] => None
  | (k', v') :: d' => if String.eqb k' k then Some v' else dict_get d' k
  end.

(** *** Sorting *)

Section Sort.
Context {A : Type} (key : A -> float).

(** Insertion of [x] before the first element whose key is not below
    the key of [x]. *)
Fixpoint sort_insert (x : A) (l : list A) : list A :=
  match l with
  | [] => [x]
  | y :: l' => if Py.lt (key y) (key x) then y :: sort_insert x l' else x :: l
  end.

(** A stable ascending sort that compares keys with [<], as
    [list.sort(key=...)] does. *)
Fixpoint sort_ascending (l : list A) : list A :=
  match l with
  | [] => []
  | x :: l' => sort_insert x (sort_ascending l')
  end.

(** [list.sort(key=..., reverse=True)] and [sorted(..., reverse=True)]:
    the list is reversed, sorted by the stable ascending sort and
    reversed again, which keeps elements of equal key in their original
    order. *)
Definition sort_reverse (l : list A) : list A :=
  rev (sort_ascending (rev l)).
End Sort.

(** The configuration attributes set by [__init__]. *)
Record Config : Type := mkConfig {
  min_market_cap : float;
  min_volume : float;
  max_pe_ratio : float;
  min_pe_ratio : float;
  max_debt_to_equity : float;
  min_current_ratio : float;
  min_roe : float
}.

(** The values [__init__] assigns. *)
Definition default_config : Config :=
  mkConfig 1000000000 1000000 50 5 2.0 1.0 0.10.

Section Engine.
Context (ta : TA) (pd : Numerics) (yf : YFinance) (cfg : Config).

(** [get_stock_data]: an empty frame when the client raises. *)
Definition get_stock_data (sym period : string) : DataFrame :=
  match history yf sym period with
  | Ok data => data
  | Raise _ => empty_frame
  end.

(** [get_fundamental_data]: the numeric entries of the dictionary built
    from [info] (the entries [symbol], [sector] and [industry] hold
    strings and are read by no function of the engine), or the empty
    dictionary when the client raises. *)
Definition get_fundamental_data (sym : string) : gmap string float :=
  match info yf sym with
  | Ok i =>
      list_to_map
        (map (fun '(k, src) => (k, Py.get i src 0))
           [("market_cap", "marketCap"); ("pe_ratio", "trailingPE");
            ("forward_pe", "forwardPE"); ("price_to_book", "priceToBook");
            ("debt_to_equity", "debtToEquity"); ("current_ratio", "currentRatio");
            ("roe", "returnOnEquity"); ("roa", "returnOnAssets");
            ("profit_margins", "profitMargins"); ("revenue_growth", "revenueGrowth");
            ("earnings_growth", "earningsGrowth"); ("beta", "beta");
            ("dividend_yield", "dividendYield"); ("volume", "volume");
            ("avg_volume", "averageVolume")])
  | Raise _ => ∅
  end.

(** [df[col] = f(...)] inside the [try] block of
    [calculate_technical_indicators]. *)
Definition assign (col : string) (rhs : DataFrame -> result (list float))
  : M DataFrame unit :=
  fun df =>
    match rhs df with
    | Ok v => (Ok tt, setitem df col v)
    | Raise e => (Raise e, df)
    end.

Definition column (df : DataFrame) (col : string) : result (list float) :=
  match getitem df col with
  | Ok s => Ok (s_values s)
  | Raise e => Raise e
  end.

Definition with1 (c : string) (f : list float -> result (list float))
  : DataFrame -> result (list float) :=
  fun df => match column df c with Ok v => f v | Raise e => Raise e end.

Definition with2 (c1 c2 : string) (f : list float -> list float -> result (list float))
  : DataFrame -> result (list float) :=
  fun df =>
    match column df c1, column df c2 with
    | Ok v1, Ok v2 => f v1 v2
    | Raise e, _ => Raise e
    | _, Raise e => Raise e
    end.

Fixpoint zip_with (f : float -> float -> float) (a b : list float) : list float :=
  match a, b with
  | x :: a', y :: b' => f x y :: zip_with f a' b'
  | _, _ => []
  end.

(** [calculate_technical_indicators]: the columns are added one after
    the other; when a statement raises, the handler prints and the frame
    keeps the columns added so far.  The [MACD] and [BollingerBands]
    objects are represented by their three accessors. *)
Definition calculate_technical_indicators (data : DataFrame) : DataFrame :=
  if df_empty data then data
  else
    let df := data in
    try_except
      (assign "SMA_20" (with1 "Close" (fun c => sma_indicator ta c 20)) ;;;
       assign "SMA_50" (with1 "Close" (fun c => sma_indicator ta c 50)) ;;;
       assign "EMA_12" (with1 "Close" (fun c => ema_indicator ta c 12)) ;;;
       assign "EMA_26" (with1 "Close" (fun c => ema_indicator ta c 26)) ;;;
       assign "RSI" (with1 "Close" (fun c => rsi ta c 14)) ;;;
       assign "MACD" (with1 "Close" (macd ta)) ;;;
       assign "MACD_Signal" (with1 "Close" (macd_signal ta)) ;;;
       assign "MACD_Histogram" (with1 "Close" (macd_diff ta)) ;;;
       assign "BB_Upper" (with1 "Close" (bollinger_hband ta)) ;;;
       assign "BB_Lower" (with1 "Close" (bollinger_lband ta)) ;;;
       assign "BB_Middle" (with1 "Close" (bollinger_mavg ta)) ;;;
       assign "BB_Width"
         (with2 "BB_Upper" "BB_Lower" (fun u l => Ok (zip_with PrimFloat.sub u l))) ;;;
       assign "BB_Position"
         (fun df =>
            match column df "Close", column df "BB_Lower", column df "BB_Upper" with
            | Ok c, Ok l, Ok u =>
                Ok (zip_with PrimFloat.div (zip_with PrimFloat.sub c l)
                      (zip_with PrimFloat.sub u l))
            | Raise e, _, _ => Raise e
            | _, Raise e, _ => Raise e
            | _, _, Raise e => Raise e
            end) ;;;
       assign "Volume_SMA" (with2 "Close" "Volume" (volume_sma ta)) ;;;
       assign "OBV" (with2 "Close" "Volume" (on_balance_volume ta)) ;;;
       assign "ATR"
         (fun df =>
            match column df "High", column df "Low", column df "Close" with
            | Ok h, Ok l, Ok c => average_true_range ta h l c
            | Raise e, _, _ => Raise e
            | _, Raise e, _ => Raise e
            | _, _, Raise e => Raise e
            end))
      df.

(** *** Technical scorer (lines 309-484) *)

(** [_calculate_trend_score].  The consistency term compares the two
    slices [iloc[-5:]] and [iloc[-10:-5]] of the [Close] column with the
    [>] of pandas. *)
Definition _calculate_trend_score (data : DataFrame) : result float :=
  if df_len data <? 50 then Ok 0%float
  else
    match last_of data "Close", last_of data "SMA_20", last_of data "SMA_50" with
    | Ok current_price, Ok sma_20, Ok sma_50 =>
        let score := 0 in
        let score := if Py.gt current_price sma_20 then score + 20 else score in
        let score := if Py.gt current_price sma_50 then score + 20 else score in
        let score := if Py.gt sma_20 sma_50 then score + 20 else score in
        match getitem data "Close" with
        | Ok close =>
            match series_gt (iloc_slice 5 0 close) (iloc_slice 10 5 close) with
            | Ok cmp =>
                let recent_trend := count_true cmp in
                Ok (Py.Z2f score + (Py.Z2f recent_trend / 5) * 40)%float
            | Raise e => Raise e
            end
        | Raise e => Raise e
        end
    | Raise e, _, _ => Raise e
    | _, Raise e, _ => Raise e
    | _, _, Raise e => Raise e
    end.

(** [_calculate_momentum_score]. *)
Definition _calculate_momentum_score (data : DataFrame) : result Z :=
  if df_len data <? 14 then Ok 0
  else
    match last_of data "RSI", last_of data "MACD", last_of data "MACD_Signal" with
    | Ok rsi, Ok macd, Ok macd_signal =>
        let score := 0 in
        let score :=
          if Py.le 30 rsi && Py.le rsi 70 then score + 25
          else if Py.lt rsi 30 then score + 15
          else if Py.gt rsi 70 then score + 10
          else score in
        let score := if Py.gt macd macd_signal then score + 25 else score in
        let score := if Py.gt macd 0 then score + 25 else score in
        Ok score
    | Raise e, _, _ => Raise e
    | _, Raise e, _ => Raise e
    | _, _, Raise e => Raise e
    end.

(** [_calculate_volatility_score]. *)
Definition _calculate_volatility_score (data : DataFrame) : result Z :=
  if df_len data <? 14 then Ok 0
  else
    match last_of data "BB_Position", last_of data "ATR", getitem data "ATR" with
    | Ok bb_position, Ok atr, Ok atr_col =>
        match iloc_last (mkSeries (s_index atr_col)
                           (rolling_mean pd 14 (s_values atr_col))) with
        | Ok avg_atr =>
            let score := 0 in
            let score :=
              if Py.le 0.2 bb_position && Py.le bb_position 0.8 then score + 50
              else if Py.lt bb_position 0.2 then score + 30
              else if Py.gt bb_position 0.8 then score + 20
              else score in
            let ratio := (atr / avg_atr)%float in
            let score :=
              if Py.le 0.5 ratio && Py.le ratio 1.5 then score + 50 else score + 25 in
            Ok score
        | Raise e => Raise e
        end
    | Raise e, _, _ => Raise e
    | _, Raise e, _ => Raise e
    | _, _, Raise e => Raise e
    end.

(** [_calculate_volume_score]. *)
Definition _calculate_volume_score (data : DataFrame) : result Z :=
  if df_len data <? 20 then Ok 0
  else
    match last_of data "Volume", getitem data "Volume" with
    | Ok current_volume, Ok vol =>
        match iloc_last (mkSeries (s_index vol) (rolling_mean pd 20 (s_values vol))),
              getitem data "OBV" with
        | Ok avg_volume, Ok obv =>
            let obv_trend :=
              series_mean pd (pct_change pd (s_values (iloc_slice 5 0 obv))) in
            let score := 0 in
            let score :=
              if Py.gt current_volume (avg_volume * 1.2)%float then score + 50
              else if Py.gt current_volume avg_volume then score + 30
              else score + 10 in
            let score := if Py.gt obv_trend 0 then score + 50 else score + 20 in
            Ok score
        | Raise e, _ => Raise e
        | _, Raise e => Raise e
        end
    | Raise e, _ => Raise e
    | _, Raise e => Raise e
    end.

(** [_calculate_support_resistance_score]. *)
Definition _calculate_support_resistance_score (data : DataFrame) : result Z :=
  if df_len data <? 20 then Ok 0
  else
    match last_of data "Close", getitem data "Low", getitem data "High" with
    | Ok current_price, Ok low, Ok high =>
        let recent_low := series_min pd (s_values (iloc_slice 20 0 low)) in
        let recent_high := series_max pd (s_values (iloc_slice 20 0 high)) in
        let score := 0 in
        let support_distance := ((current_price - recent_low) / current_price)%float in
        let resistance_distance := ((recent_high - current_price) / current_price)%float in
        let score :=
          if Py.lt support_distance 0.05 then score + 50
          else if Py.lt resistance_distance 0.05 then score + 30
          else score + 20 in
        Ok score
    | Raise e, _, _ => Raise e
    | _, Raise e, _ => Raise e
    | _, _, Raise e => Raise e
    end.

(** The [weights] dictionary of [technical_score]. *)
Definition technical_weights : gmap string float :=
  <["trend" := 0.30%float]>
  (<["momentum" := 0.25%float]>
  (<["volatility" := 0.20%float]>
  (<["volume" := 0.15%float]>
  (<["support_resistance" := 0.10%float]> ∅)))).

(** One category of the [try] block of [technical_score]: compute the
    weighted score, store it in [scores] and add it to [score]. *)
Definition category (name : string) (raw : result float)
  : M (float * gmap string float) unit :=
  x <- lift raw ;;
  let weighted := (x * Py.get technical_weights name 0)%float in
  modify (fun '(score, scores) => ((score + weighted)%float, <[name := weighted]> scores)).

Definition as_float (r : result Z) : result float :=
  match r with
  | Ok z => Ok (Py.Z2f z)
  | Raise e => Raise e
  end.

(** [technical_score]. *)
Definition technical_score (data : DataFrame) : float * gmap string float :=
  if df_empty data || (df_len data <? 50) then (0%float, ∅)
  else
    let '(score, scores) :=
      try_except
        (category "trend" (_calculate_trend_score data) ;;;
         category "momentum" (as_float (_calculate_momentum_score data)) ;;;
         category "volatility" (as_float (_calculate_volatility_score data)) ;;;
         category "volume" (as_float (_calculate_volume_score data)) ;;;
         category "support_resistance"
           (as_float (_calculate_support_resistance_score data)))
        (0%float, ∅) in
    (Py.min score 100, scores).

(** *** Signal generator (lines 540-605) *)

Definition append (s : Signal) : M (list Signal) unit :=
  modify (fun signals => signals ++ [s]).

Definition skip : M (list Signal) unit := ret tt.

(** [generate_signals]. *)
Definition generate_signals (data : DataFrame) : list Signal :=
  let signals := [] in
  if df_empty data || (df_len data <? 50) then signals
  else
    try_except
      (current_price <- lift (last_of data "Close") ;;
       rsi <- lift (last_of data "RSI") ;;
       macd <- lift (last_of data "MACD") ;;
       macd_signal <- lift (last_of data "MACD_Signal") ;;
       bb_position <- lift (last_of data "BB_Position") ;;
       (if Py.lt rsi 30
        then append (mkSignal SIG_BUY "RSI" "Strong" "Oversold condition")
        else if Py.gt rsi 70
        then append (mkSignal SIG_SELL "RSI" "Strong" "Overbought condition")
        else skip) ;;;
       (if Py.gt macd macd_signal && Py.lt macd 0
        then append (mkSignal SIG_BUY "MACD" "Medium" "MACD crossover above signal line")
        else if Py.lt macd macd_signal && Py.gt macd 0
        then append (mkSignal SIG_SELL "MACD" "Medium" "MACD crossover below signal line")
        else skip) ;;;
       (if Py.lt bb_position 0.2
        then append (mkSignal SIG_BUY "Bollinger Bands" "Medium" "Price near lower band")
        else if Py.gt bb_position 0.8
        then append (mkSignal SIG_SELL "Bollinger Bands" "Medium" "Price near upper band")
        else skip))
      signals.

(** *** Stock analyzer (lines 486-538) *)

(** The [if]/[elif] chain of lines 521-530. *)
Definition recommend (overall : float) : Recommendation :=
  if Py.ge overall 80 then STRONG_BUY
  else if Py.ge overall 70 then BUY
  else if Py.ge overall 50 then HOLD
  else if Py.ge overall 30 then SELL
  else STRONG_SELL.

(** [analyze_stock].  Every function called in the [try] block handles
    its own exceptions and the remaining statements are float arithmetic
    and dictionary stores, so the handler of [analyze_stock] is never
    entered; the function always returns the [analysis] dictionary. *)
Definition analyze_stock (sym : string) : Analysis :=
  let analysis :=
    mkAnalysis sym ∅ None 0%float 0%float 0%float HOLD [] None None in
  let fundamental_data := get_fundamental_data sym in
  let stock_data := get_stock_data sym "1y" in
  if negb (df_empty stock_data) then
    let technical_data := calculate_technical_indicators stock_data in
    let '(fundamental_score, fundamental_breakdown) := fundamental_score fundamental_data in
    let '(technical_score, technical_breakdown) := technical_score technical_data in
    let overall := (fundamental_score * 0.6 + technical_score * 0.4)%float in
    mkAnalysis sym fundamental_data (Some technical_data)
      fundamental_score technical_score overall
      (recommend overall)
      (generate_signals technical_data)
      (Some fundamental_breakdown) (Some technical_breakdown)
  else
    mkAnalysis sym fundamental_data None 0%float 0%float 0%float HOLD [] None None.

(** *** Screener (lines 607-628) *)

(** The filter of lines 617-619. *)
Definition passes (analysis : Analysis) : bool :=
  let fundamental_data := fundamental_data analysis in
  Py.ge (Py.get fundamental_data "market_cap" 0) (min_market_cap cfg)
  && Py.ge (Py.get fundamental_data "volume" 0) (min_volume cfg)
  && Py.ge (overall_score analysis) 60.

(** The loop of [screen_stocks]: the analyses that pass the filter, in
    the order of the symbols.  [analyze_stock] does not raise and the
    filter compares floats, so the handler of the loop is never
    entered. *)
Fixpoint screened (symbols : list string) : list Analysis :=
  match symbols with
  | [] => []
  | sym :: rest =>
      let analysis := analyze_stock sym in
      if passes analysis then analysis :: screened rest else screened rest
  end.

(** [screen_stocks]. *)
Definition screen_stocks (symbols : list string) : list Analysis :=
  sort_reverse overall_score (screened symbols).

(** *** Portfolio recommender (lines 660-696) *)

(** Lines 679-682: the weight of every sector by rank, and their sum. *)
Fixpoint allocate (i : Z) (sorted_sectors : list (string * float))
    (allocation : list (string * float)) (total_weight : float)
  : list (string * float) * float :=
  match sorted_sectors with
  | [] => (allocation, total_weight)
  | (sector, score) :: rest =>
      let weight := Py.max 0.05 (0.15 - Py.Z2f i * 0.01)%float in
      allocate (i + 1) rest (dict_set allocation sector weight)
        (total_weight + weight)%float
  end.

(** Lines 685-686: every weight divided by the sum, key by key. *)
Fixpoint normalize (keys : list string) (allocation : list (string * float))
    (total_weight : float) : list (string * float) :=
  match keys with
  | [] => allocation
  | sector :: rest =>
      let allocation :=
        match dict_get allocation sector with
        | Some w => dict_set allocation sector (w / total_weight)%float
        | None => allocation
        end in
      normalize rest allocation total_weight
  end.

Definition risk_level_of (avg_beta : float) : RiskLevel :=
  if Py.le 0.8 avg_beta && Py.le avg_beta 1.2 then Moderate
  else if Py.gt avg_beta 1.2 then High
  else Low.

(** [generate_portfolio_recommendations]. *)
Definition generate_portfolio_recommendations
    (top : list Analysis) (sector_analysis : list (string * SectorProfile))
  : Recommendations :=
  let sector_scores :=
    fold_left (fun d '(sector, data) => dict_set d sector (momentum data))
      sector_analysis [] in
  let sorted_sectors := sort_reverse snd sector_scores in
  let '(allocation, total_weight) := allocate 0 sorted_sectors [] 0%float in
  let allocation := normalize (map fst allocation) allocation total_weight in
  let risk :=
    match top with
    | [] => None
    | _ =>
        let avg_beta :=
          np_mean pd
            (map (fun stock => Py.get (fundamental_data stock) "beta" 1.0)
               (firstn 10 top)) in
        Some (avg_beta, risk_level_of avg_beta)
    end in
  mkRecommendations (firstn 10 top) allocation risk [].

End Engine.

(** ** Auxiliary definitions for the proofs *)

(** Composition of two comparison outcomes none of which is [Gt]. *)
Definition cmp_seq (c1 c2 : comparison) : comparison :=
  match c1, c2 with
  | Eq, Eq => Eq
  | _, _ => Lt
  end.

(** The order of two floats, [None] when one of them is NaN. *)
Definition fcmp (a b : float) : option comparison :=
  SFcompare (Prim2SF a) (Prim2SF b).

(** The total of [fundamental_score] as a function of the five integer
    sums of bucket scores that enter it. *)
Definition fundamental_total (v h p g b : Z) : float :=
  Py.min
    (((((0 + Py.Z2f v / 2 * 0.25)
        + Py.Z2f h / 2 * 0.25)
        + Py.Z2f p / 3 * 0.25)
        + Py.Z2f g / 2 * 0.15)
        + Py.Z2f b * 0.10)%float
    100.

(** The multiples of 20 from 0 to [20 * n]: the values a sum of bucket
    scores can take. *)
Definition steps (n : nat) : list Z :=
  map (fun i => 20 * Z.of_nat i) (seq 0 (S n)).

(** [z] is a multiple of 20 between 0 and [20 * n]. *)
Definition bucket (n : nat) (z : Z) : Prop :=
  exists i : nat, (i <= n)%nat /\ z = 20 * Z.of_nat i.

Definition beta_values : list Z := [50; 100; 80; 60; 40].

(** Every combination of bucket sums gives a total of at least 4. *)
Definition totals_ge_4 : bool :=
  forallb (fun v => forallb (fun h => forallb (fun p => forallb (fun g =>
  forallb (fun b => Py.le 4 (fundamental_total v h p g b))
    beta_values) (steps 10)) (steps 15)) (steps 10)) (steps 10).

(** Raising the ROE bucket never lowers the total, whatever the other
    bucket sums are. *)
Definition totals_monotone_in_roe : bool :=
  forallb (fun v => forallb (fun h => forallb (fun c => forallb (fun g =>
  forallb (fun b => forallb (fun r1 => forallb (fun r2 =>
    if r1 <=? r2
    then Py.le (fundamental_total v h (r1 + c) g b)
               (fundamental_total v h (r2 + c) g b)
    else true)
    (steps 5)) (steps 5))
    beta_values) (steps 10)) (steps 10)) (steps 10)) (steps 10).

(** Every category of the breakdown is non-negative and the risk category
    is at least [40 * 0.10]. *)
Definition categories_nonneg : bool :=
  forallb (fun s => Py.le 0 (Py.Z2f s / 2 * 0.25)
                    && Py.le 0 (Py.Z2f s / 2 * 0.15))%float (steps 10)
  && forallb (fun s => Py.le 0 (Py.Z2f s / 3 * 0.25))%float (steps 15)
  && forallb (fun b => Py.le (40 * 0.10) (Py.Z2f b * 0.10)
                    && Py.le 0 (Py.Z2f b * 0.10))%float beta_values.

(** The sum of a list of floats, added from left to right starting from 0,
    as the builtin [sum] adds them. *)
Definition sum_floats (l : list float) : float :=
  fold_left PrimFloat.add l 0%float.

(** The raw weight of the sector of rank [i] (line 680). *)
Definition raw_weight (i : Z) : float :=
  Py.max 0.05 (0.15 - Py.Z2f i * 0.01)%float.

(** The raw weights of [n] sectors of ranks [i], [i + 1], ... *)
Fixpoint raw_weights (i : Z) (n : nat) : list float :=
  match n with
  | O => []
  | S n' => raw_weight i :: raw_weights (i + 1) n'
  end.

(** The allocation weights of [n] sectors, in rank order. *)
Definition normalized_weights (n : nat) : list float :=
  let ws := raw_weights 0 n in
  let total_weight := fold_left PrimFloat.add ws 0%float in
  map (fun w => (w / total_weight)%float) ws.

(** The rational number a finite float stands for. *)
Definition float_to_Q (x : float) : option Q :=
  match Prim2SF x with
  | S754_zero _ => Some 0%Q
  | S754_finite s m e =>
      let q := (inject_Z (Zpos m) * Qpower 2 e)%Q in
      Some (if s then (- q)%Q else q)
  | S754_infinity _ | S754_nan => None
  end.

(** The exact (unrounded) sum of a list of finite floats. *)
Fixpoint exact_sum (l : list float) : option Q :=
  match l with
  | [] => Some 0%Q
  | x :: l' =>
      match float_to_Q x, exact_sum l' with
      | Some q, Some r => Some (q + r)%Q
      | _, _ => None
      end
  end.

(** [q] is within [1e-9] of 1. *)
Definition near_one (q : Q) : bool :=
  Qle_bool (Qabs (q - 1)) (1 # 1000000000)%Q.

(** The weights of [n] sectors sum to 1 within [1e-9], both exactly and
    when added as floats from left to right. *)
Definition weights_sum_to_one (n : nat) : bool :=
  match exact_sum (normalized_weights n) with
  | Some q => near_one q
  | None => false
  end
  && Py.le (abs (sum_floats (normalized_weights n) - 1)) 1e-9.

(** ** Concrete collaborators and inputs for the examples *)

(** A [ta] package every function of which raises. *)
Definition ta_raising : TA :=
  let r {A} : result A := Raise (LibraryError "ta") in
  mkTA (fun _ _ => r) (fun _ _ => r) (fun _ _ => r) (fun _ => r) (fun _ => r)
       (fun _ => r) (fun _ => r) (fun _ => r) (fun _ => r) (fun _ _ => r)
       (fun _ _ => r) (fun _ _ _ => r).

(** A [ta] package that returns the closing prices for every indicator. *)
Definition ta_echo : TA :=
  mkTA (fun c _ => Ok c) (fun c _ => Ok c) (fun c _ => Ok c) (fun c => Ok c)
       (fun c => Ok c) (fun c => Ok c) (fun c => Ok c) (fun c => Ok c)
       (fun c => Ok c) (fun c _ => Ok c) (fun c _ => Ok c) (fun _ _ c => Ok c).

Definition mean_floats (l : list float) : float :=
  (sum_floats l / Py.Z2f (Z.of_nat (length l)))%float.

Definition numerics_left_to_right : Numerics :=
  mkNumerics
    (fun w l => map (fun i => mean_floats (firstn w (skipn (S i - w) l))) (seq 0 (length l)))
    (fun l => zip_with (fun prev cur => (cur / prev - 1)%float) l (tl l))
    mean_floats
    (fun l => fold_left Py.min l infinity)
    (fun l => fold_left Py.max l neg_infinity)
    mean_floats.

(** Fifty daily bars with distinct timestamps and rising prices. *)
Definition bars_50 : DataFrame :=
  let days := seq 0 50 in
  let idx := map Z.of_nat days in
  let price := map (fun d => Py.Z2f (100 + Z.of_nat d)) days in
  mkDataFrame idx
    (<["Open" := price]>
     (<["High" := price]>
     (<["Low" := price]>
     (<["Close" := price]>
     (<["Volume" := map (fun _ => 2000000%float) days]> ∅))))).

(** The [info] of a company whose every metric falls in the best bucket. *)
Definition best_info : gmap string float :=
  list_to_map
    [("marketCap", 2000000000%float); ("trailingPE", 10%float);
     ("priceToBook", 0.5%float); ("debtToEquity", 0%float);
     ("currentRatio", 3%float); ("returnOnEquity", 0.25%float);
     ("returnOnAssets", 0.15%float); ("profitMargins", 0.25%float);
     ("revenueGrowth", 0.25%float); ("earningsGrowth", 0.25%float);
     ("beta", 1.0%float); ("volume", 2000000%float)].

(** A client that knows three symbols: [GOOD] and [WEAK] have fifty bars
    of history, [NONE] has an empty history; every other request raises. *)
Definition yf_demo : YFinance :=
  mkYFinance
    (fun sym _ =>
       if String.eqb sym "GOOD" then Ok bars_50
       else if String.eqb sym "WEAK" then Ok bars_50
       else if String.eqb sym "NONE" then Ok empty_frame
       else Raise (LibraryError "no data"))
    (fun sym =>
       if String.eqb sym "GOOD" then Ok best_info
       else if String.eqb sym "WEAK" then Ok ∅
       else Raise (LibraryError "no info")).

(** A sector analysis of three sectors. *)
Definition sectors_demo : list (string * SectorProfile) :=
  [("Technology", mkSectorProfile "XLK" 200 12 18 55 39.5);
   ("Energy", mkSectorProfile "XLE" 90 20 25 60 50);
   ("Utilities", mkSectorProfile "XLU" 70 (-3) 12 40 17)]%float.

(** The order in which [generate_signals] examines the indicators. *)
Definition indicator_order : list string := ["RSI"; "MACD"; "Bollinger Bands"].

(** A frame of 50 bars on which the three indicators fire. *)
Definition frame_three_signals : DataFrame :=
  let idx := map Z.of_nat (seq 0 50) in
  let const (v : float) := map (fun _ => v) idx in
  mkDataFrame idx
    (<["Close" := const 10%float]>
     (<["RSI" := const 25%float]>
     (<["MACD" := const (-1)%float]>
     (<["MACD_Signal" := const (-2)%float]>
     (<["BB_Position" := const 0.9%float]> ∅))))).

(** ** Further functions of the repository *)

(** The [sector_etfs] dictionary of [__init__], in insertion order. *)
Definition sector_etfs : list (string * string) :=
  [("XLK", "Technology"); ("XLV", "Healthcare"); ("XLF", "Financial Services");
   ("XLY", "Consumer Cyclical"); ("XLI", "Industrials"); ("XLP", "Consumer Defensive");
   ("XLE", "Energy"); ("XLB", "Basic Materials"); ("XLRE", "Real Estate");
   ("XLC", "Communication Services"); ("XLU", "Utilities")].

(** [s.iloc[0]]: [IndexError] on an empty series. *)
Definition iloc_first (s : Series) : result float :=
  match s_values s with
  | v :: _ => Ok v
  | [] => Raise IndexError
  end.

Section SectorAggregator.
Context (ta : TA) (pd : Numerics) (yf : YFinance).

(** [s.std()] of pandas, left open like the other reductions. *)
Context (series_std : list float -> float).

(** The body of the [try] block of [analyze_sector_performance] for one
    ETF: nothing is stored when the history is empty, and an exception
    leaves the dictionary as it is. *)
Definition sector_entry (etf sector : string)
  : M (list (string * SectorProfile)) unit :=
  let data := get_stock_data yf etf "6mo" in
  if negb (df_empty data) then
    close <- lift (getitem data "Close") ;;
    current_price <- lift (iloc_last close) ;;
    price_6mo_ago <- lift (iloc_first close) ;;
    let return_6mo := ((current_price / price_6mo_ago - 1) * 100)%float in
    let volatility :=
      (series_std (pct_change pd (s_values close)) * sqrt 252 * 100)%float in
    let technical_data := calculate_technical_indicators ta data in
    let '(technical_score, _) := technical_score pd technical_data in
    modify (fun sector_analysis =>
      dict_set sector_analysis sector
        (mkSectorProfile etf current_price return_6mo volatility technical_score
           (return_6mo + technical_score * 0.5)%float))
  else ret tt.

(** The loop of [analyze_sector_performance] over a list of
    [(etf, sector)] items. *)
Fixpoint sector_loop (items : list (string * string))
    (sector_analysis : list (string * SectorProfile))
  : list (string * SectorProfile) :=
  match items with
  | [] => sector_analysis
  | (etf, sector) :: rest =>
      sector_loop rest (try_except (sector_entry etf sector) sector_analysis)
  end.

(** [analyze_sector_performance] (lines 630-658). *)
Definition analyze_sector_performance : list (string * SectorProfile) :=
  sector_loop sector_etfs [].

End SectorAggregator.

(** *** Callers: [dashboard.py] and [main.py] *)

(** The list comprehension of [dashboard.py], line 72:
    [[s for s in screened_stocks if s['overall_score'] >= min_score]],
    where [min_score] is the integer of the slider. *)
Definition filter_min_score (min_score : Z) (screened_stocks : list Analysis)
  : list Analysis :=
  List.filter (fun s => Py.ge (overall_score s) (Py.Z2f min_score)) screened_stocks.

(** [dashboard.py], lines 56-72: the market-cap input (an integer number of
    billions) replaces [min_market_cap], the stocks are screened, and the
    result is filtered by the slider's score. *)
Definition dashboard_screen (ta : TA) (pd : Numerics) (yf : YFinance)
    (cfg : Config) (min_score billions : Z) (stock_list : list string)
  : list Analysis :=
  let cfg :=
    mkConfig (Py.Z2f billions * 1e9)%float (min_volume cfg) (max_pe_ratio cfg)
      (min_pe_ratio cfg) (max_debt_to_equity cfg) (min_current_ratio cfg)
      (min_roe cfg) in
  filter_min_score min_score (screen_stocks ta pd yf cfg stock_list).

(** The test of [analyze_single_stock] in [main.py], line 143: the
    analysis is printed only when [analysis['overall_score'] > 0]. *)
Definition can_report (analysis : Analysis) : bool :=
  Py.gt (overall_score analysis) 0.

(** ** Auxiliary definitions for the further proofs *)

(** The recommendations from worst to best. *)
Definition recommendation_rank (r : Recommendation) : Z :=
  match r with
  | STRONG_SELL => 0
  | SELL => 1
  | HOLD => 2
  | BUY => 3
  | STRONG_BUY => 4
  end.

(** Every combination of bucket sums gives a total of at most 100. *)
Definition totals_le_100 : bool :=
  forallb (fun v => forallb (fun h => forallb (fun p => forallb (fun g =>
  forallb (fun b => Py.le (fundamental_total v h p g b) 100)
    beta_values) (steps 10)) (steps 15)) (steps 10)) (steps 10).

(** Raising one of the four bucket sums by one step of 20 never lowers the
    total. *)
Definition totals_step_up : bool :=
  forallb (fun v => forallb (fun h => forallb (fun p => forallb (fun g =>
  forallb (fun b =>
    let t := fundamental_total v h p g b in
    Py.le t (fundamental_total (v + 20) h p g b)
    && Py.le t (fundamental_total v (h + 20) p g b)
    && Py.le t (fundamental_total v h (p + 20) g b)
    && Py.le t (fundamental_total v h p (g + 20) b))
    beta_values) (steps 10)) (steps 15)) (steps 10)) (steps 10).

(** Without a technical score the overall score is positive and below the
    [BUY] threshold, whatever the fundamental total is. *)
Definition overall_without_technical : bool :=
  forallb (fun v => forallb (fun h => forallb (fun p => forallb (fun g =>
  forallb (fun b =>
    let overall := (fundamental_total v h p g b * 0.6 + 0 * 0.4)%float in
    Py.gt overall 0 && Py.le overall 60 && Py.lt overall 70)
    beta_values) (steps 10)) (steps 15)) (steps 10)) (steps 10).

(** The raw scores the five technical categories can return. *)
Definition trend_values : list float :=
  0%float ::
  flat_map (fun score =>
    map (fun recent_trend => (Py.Z2f score + Py.Z2f recent_trend / 5 * 40)%float)
      [0; 1; 2; 3; 4; 5]) [0; 20; 40; 60].

Definition momentum_values : list Z :=
  0 :: flat_map (fun a => flat_map (fun b => map (fun c => a + b + c) [0; 25])
                            [0; 25]) [25; 15; 10; 0].

Definition volatility_values : list Z :=
  0 :: flat_map (fun a => map (fun b => a + b) [50; 25]) [50; 30; 20; 0].

Definition volume_values : list Z :=
  0 :: flat_map (fun a => map (fun b => a + b) [50; 20]) [50; 30; 10].

Definition support_resistance_values : list Z := [0; 50; 30; 20].

(** The bounds of a technical total. *)
Definition technical_in_range (score : float) : bool :=
  Py.le 0 (Py.min score 100) && Py.le (Py.min score 100) 88.75.

(** Every prefix of category scores gives a total between 0 and 88.75. *)
Definition technical_totals_in_range : bool :=
  technical_in_range 0 &&
  forallb (fun x1 =>
    let s1 := (0 + x1 * 0.30)%float in
    technical_in_range s1 &&
    forallb (fun x2 =>
      let s2 := (s1 + Py.Z2f x2 * 0.25)%float in
      technical_in_range s2 &&
      forallb (fun x3 =>
        let s3 := (s2 + Py.Z2f x3 * 0.20)%float in
        technical_in_range s3 &&
        forallb (fun x4 =>
          let s4 := (s3 + Py.Z2f x4 * 0.15)%float in
          technical_in_range s4 &&
          forallb (fun x5 =>
            technical_in_range (s4 + Py.Z2f x5 * 0.10)%float)
            support_resistance_values)
          volume_values)
        volatility_values)
      momentum_values)
    trend_values.

(** The slider values up to the screener's own threshold. *)
Definition slider_up_to_60 : bool :=
  forallb (fun ms => Py.le (Py.Z2f ms) 60) (map Z.of_nat (seq 0 61)).

(** Descending order of a list of floats, strictly. *)
Fixpoint strictly_descending (l : list float) : bool :=
  match l with
  | x :: ((y :: _) as l') => Py.gt x y && strictly_descending l'
  | _ => true
  end.

(** For [n] sectors the sum of the raw weights is positive, and the
    normalized weights are positive, at most 1 and strictly descending. *)
Definition weights_well_formed (n : nat) : bool :=
  Py.gt (fold_left PrimFloat.add (raw_weights 0 n) 0%float) 0
  && forallb (fun w => Py.gt w 0 && Py.le w 1) (normalized_weights n)
  && strictly_descending (normalized_weights n).

(** A client with fifty bars of history for every symbol and no
    fundamentals at all. *)
Definition yf_no_info : YFinance :=
  mkYFinance (fun _ _ => Ok bars_50) (fun _ => Raise (LibraryError "no info")).

(** * Theorems *)

(** ** The order of floats *)

Ltac cmp_cases :=
  repeat match goal with
  | H : context [ (?x ?= ?y)%Z ] |- _ => destruct (Z.compare_spec x y)
  | |- context [ (?x ?= ?y)%Z ] => destruct (Z.compare_spec x y)
  | H : context [ (?x ?= ?y)%positive ] |- _ => destruct (Pos.compare_spec x y)
  | |- context [ (?x ?= ?y)%positive ] => destruct (Pos.compare_spec x y)
  end; simpl in *; try congruence; try lia.

Lemma SFcompare_seq a b c c1 c2 :
  SFcompare a b = Some c1 -> SFcompare b c = Some c2 -> c1 <> Gt -> c2 <> Gt ->
  SFcompare a c = Some (cmp_seq c1 c2).
Proof.
  destruct a as [sa|sa| |sa ma ea], b as [sb|sb| |sb mb eb], c as [sc|sc| |sc mc ec];
    try destruct sa; try destruct sb; try destruct sc; simpl;
    intros H1 H2 N1 N2; try discriminate;
    try (injection H1 as <-); try (injection H2 as <-); try congruence; try reflexivity.
  all: change (Pos.compare_cont Eq ?p ?q) with (Pos.compare p q) in *.
  all: f_equal; cmp_cases.
Qed.

Lemma SFcompare_opp a b :
  SFcompare b a = option_map CompOpp (SFcompare a b).
Proof.
  destruct a as [sa|sa| |sa ma ea], b as [sb|sb| |sb mb eb];
    try destruct sa; try destruct sb; simpl; try reflexivity.
  all: change (Pos.compare_cont Eq ?p ?q) with (Pos.compare p q) in *.
  all: f_equal; rewrite (Z.compare_antisym ea eb); destruct (ea ?= eb); simpl; try reflexivity.
  all: rewrite (Pos.compare_antisym ma mb); destruct (ma ?= mb)%positive; reflexivity.
Qed.

Lemma SFcompare_defined a a' b b' c1 c2 :
  SFcompare a a' = Some c1 -> SFcompare b' b = Some c2 ->
  exists c, SFcompare a b = Some c.
Proof.
  destruct a, b, a', b'; simpl; intros; try discriminate; eauto.
Qed.

Lemma le_fcmp a b :
  Py.le a b = true <-> fcmp a b = Some Lt \/ fcmp a b = Some Eq.
Proof.
  unfold Py.le, fcmp. rewrite FloatAxioms.leb_spec. unfold SFleb.
  destruct (SFcompare _ _) as [[]|]; intuition congruence.
Qed.

Lemma lt_fcmp a b : Py.lt a b = true <-> fcmp a b = Some Lt.
Proof.
  unfold Py.lt, fcmp. rewrite FloatAxioms.ltb_spec. unfold SFltb.
  destruct (SFcompare _ _) as [[]|]; intuition congruence.
Qed.

Lemma eqb_fcmp a b : (a =? b)%float = true <-> fcmp a b = Some Eq.
Proof.
  unfold fcmp. rewrite FloatAxioms.eqb_spec. unfold SFeqb.
  destruct (SFcompare _ _) as [[]|]; intuition congruence.
Qed.

Lemma fcmp_seq a b c c1 c2 :
  fcmp a b = Some c1 -> fcmp b c = Some c2 -> c1 <> Gt -> c2 <> Gt ->
  fcmp a c = Some (cmp_seq c1 c2).
Proof. apply SFcompare_seq. Qed.

Lemma fcmp_opp a b : fcmp b a = option_map CompOpp (fcmp a b).
Proof. apply SFcompare_opp. Qed.

(** [<=] on floats is transitive. *)
Lemma le_trans a b c : Py.le a b = true -> Py.le b c = true -> Py.le a c = true.
Proof.
  rewrite !le_fcmp. intros H1 H2.
  destruct H1 as [H1|H1], H2 as [H2|H2];
    rewrite (fcmp_seq _ _ _ _ _ H1 H2) by discriminate; simpl; auto.
Qed.

(** Two floats that are each comparable with something are comparable,
    and then [not (a < b)] is [b <= a]. *)
Lemma not_lt_le a b lo :
  Py.le lo a = true -> Py.le lo b = true -> Py.lt a b = false -> Py.le b a = true.
Proof.
  intros Ha Hb Hlt. apply le_fcmp in Ha, Hb.
  assert (exists c, fcmp a b = Some c) as [c Hc].
  { unfold fcmp in *.
    assert (exists c1, SFcompare (Prim2SF a) (Prim2SF lo) = Some c1) as [c1 H1].
    { rewrite SFcompare_opp. destruct Ha as [-> | ->]; simpl; eauto. }
    destruct Hb as [Hb|Hb]; eapply SFcompare_defined; eauto. }
  apply le_fcmp. rewrite fcmp_opp, Hc. simpl.
  destruct c; simpl; auto.
  exfalso. apply lt_fcmp in Hc. congruence.
Qed.

(** A float strictly below another one is not [==] to anything the other
    one is [==] to. *)
Lemma lt_not_eqb a b k :
  Py.lt a b = true -> (b =? k)%float = true -> (a =? k)%float = false.
Proof.
  intros Hlt Hb. apply lt_fcmp in Hlt. apply eqb_fcmp in Hb.
  destruct (a =? k)%float eqn:Ha; [|reflexivity].
  apply eqb_fcmp in Ha.
  assert (fcmp k b = Some Eq) as Hkb by (rewrite fcmp_opp, Hb; reflexivity).
  pose proof (fcmp_seq _ _ _ _ _ Ha Hkb) as H.
  rewrite Hlt in H. discriminate H; discriminate.
Qed.
(** C1 as stated fails: on the all-zero snapshot the total is not 5.0,
    because a debt-to-equity of 0 falls in the best bucket ([<= 0.3], 100
    points) and the financial-health category holds 12.5 instead of 0. *)
Lemma C1_all_zero_is_not_5 :
  fst (fundamental_score zero_metrics) <> 5%float.
Proof.
  intros H. vm_compute in H. discriminate H.
Qed.

(** C1 (amended): on the all-zero snapshot the fundamental total is 17.5:
    the risk category holds 50 (the beta bucket of 0) times the weight 0.10,
    that is 5.0; the financial-health category holds (100 + 0) / 2 times
    0.25, that is 12.5, since a debt-to-equity of 0 scores 100; valuation,
    profitability and growth hold 0. *)
Theorem C1_fundamental_score_all_zero :
  fst (fundamental_score zero_metrics) = 17.5%float /\
  _score_beta (Py.get zero_metrics "beta" 0) = 50 /\
  snd (fundamental_score zero_metrics) !! "risk" = Some (50 * 0.10)%float /\
  (50 * 0.10)%float = 5%float /\
  _score_debt_to_equity (Py.get zero_metrics "debt_to_equity" 0) = 100 /\
  _score_current_ratio (Py.get zero_metrics "current_ratio" 0) = 0 /\
  snd (fundamental_score zero_metrics) !! "financial_health" = Some 12.5%float /\
  snd (fundamental_score zero_metrics) !! "valuation" = Some 0%float /\
  snd (fundamental_score zero_metrics) !! "profitability" = Some 0%float /\
  snd (fundamental_score zero_metrics) !! "growth" = Some 0%float.
Proof.
  repeat split; vm_compute; reflexivity.
Qed.

(** ** The fundamental scorer: bounds and monotonicity *)

Lemma fundamental_score_total (m : gmap string float) :
  fst (fundamental_score m) =
  fundamental_total
    (_score_pe_ratio (Py.get m "pe_ratio" 0)
     + _score_price_to_book (Py.get m "price_to_book" 0))
    (_score_debt_to_equity (Py.get m "debt_to_equity" 0)
     + _score_current_ratio (Py.get m "current_ratio" 0))
    (_score_roe (Py.get m "roe" 0) + _score_roa (Py.get m "roa" 0)
     + _score_profit_margin (Py.get m "profit_margins" 0))
    (_score_growth (Py.get m "revenue_growth" 0)
     + _score_growth (Py.get m "earnings_growth" 0))
    (_score_beta (Py.get m "beta" 0)).
Proof. reflexivity. Qed.

Lemma totals_ge_4_ok :
  ltac:(let t := eval unfold totals_ge_4 in (totals_ge_4 = true) in exact t).
Proof. vm_cast_no_check (eq_refl true). Qed.

Lemma totals_monotone_in_roe_ok :
  ltac:(let t := eval unfold totals_monotone_in_roe in (totals_monotone_in_roe = true) in exact t).
Proof. vm_cast_no_check (eq_refl true). Qed.

Lemma categories_nonneg_ok : categories_nonneg = true.
Proof. vm_compute. reflexivity. Qed.

Lemma in_steps n z : bucket n z -> In z (steps n).
Proof.
  intros (i & Hi & ->). unfold steps.
  apply List.in_map_iff. exists i. split; [reflexivity|].
  apply List.in_seq. lia.
Qed.

Lemma bucket_add n m a b : bucket n a -> bucket m b -> bucket (n + m) (a + b).
Proof.
  intros (i & Hi & ->) (j & Hj & ->). exists (i + j)%nat. split; lia.
Qed.

Ltac bucket_cases :=
  repeat match goal with
  | |- context [ if ?b then _ else _ ] => destruct b
  end;
  first [ exists 0%nat; split; [lia | reflexivity]
        | exists 1%nat; split; [lia | reflexivity]
        | exists 2%nat; split; [lia | reflexivity]
        | exists 3%nat; split; [lia | reflexivity]
        | exists 4%nat; split; [lia | reflexivity]
        | exists 5%nat; split; [lia | reflexivity] ].

Lemma bucket_pe x : bucket 5 (_score_pe_ratio x).
Proof. unfold _score_pe_ratio. bucket_cases. Qed.

Lemma bucket_pb x : bucket 5 (_score_price_to_book x).
Proof. unfold _score_price_to_book. bucket_cases. Qed.

Lemma bucket_debt x : bucket 5 (_score_debt_to_equity x).
Proof. unfold _score_debt_to_equity. bucket_cases. Qed.

Lemma bucket_current x : bucket 5 (_score_current_ratio x).
Proof. unfold _score_current_ratio. bucket_cases. Qed.

Lemma bucket_roe x : bucket 5 (_score_roe x).
Proof. unfold _score_roe. bucket_cases. Qed.

Lemma bucket_roa x : bucket 5 (_score_roa x).
Proof. unfold _score_roa. bucket_cases. Qed.

Lemma bucket_margin x : bucket 5 (_score_profit_margin x).
Proof. unfold _score_profit_margin. bucket_cases. Qed.

Lemma bucket_growth x : bucket 5 (_score_growth x).
Proof. unfold _score_growth. bucket_cases. Qed.

Lemma beta_in_values x : In (_score_beta x) beta_values.
Proof.
  unfold _score_beta, beta_values.
  repeat match goal with
  | |- context [ if ?b then _ else _ ] => destruct b
  end; simpl; auto 10.
Qed.

Lemma beta_ge_40 x : 40 <= _score_beta x.
Proof.
  pose proof (beta_in_values x) as H. unfold beta_values in H. simpl in H. lia.
Qed.

(** The ROE bucket is monotone in the ROE. *)
Lemma _score_roe_monotone r1 r2 :
  Py.le r1 r2 = true -> _score_roe r1 <= _score_roe r2.
Proof.
  intros H. unfold _score_roe, Py.ge.
  repeat match goal with
  | |- context [ if ?b then _ else _ ] => destruct b eqn:?
  end; try lia; exfalso;
  repeat match goal with
  | H0 : (?a <=? ?b)%float = _ |- _ => change (a <=? b)%float with (Py.le a b) in H0
  end;
  repeat match goal with
  | H1 : Py.le ?a ?b = true, H2 : Py.le ?b ?c = true, H3 : Py.le ?a ?c = false |- _ =>
      rewrite (le_trans _ _ _ H1 H2) in H3; discriminate H3
  end.
Qed.

Lemma total_ge_4 v h p g b :
  bucket 10 v -> bucket 10 h -> bucket 15 p -> bucket 10 g -> In b beta_values ->
  Py.le 4 (fundamental_total v h p g b) = true.
Proof.
  intros Hv Hh Hp Hg Hb.
  pose proof totals_ge_4_ok as H.
  rewrite List.forallb_forall in H. specialize (H v (in_steps _ _ Hv)).
  rewrite List.forallb_forall in H. specialize (H h (in_steps _ _ Hh)).
  rewrite List.forallb_forall in H. specialize (H p (in_steps _ _ Hp)).
  rewrite List.forallb_forall in H. specialize (H g (in_steps _ _ Hg)).
  rewrite List.forallb_forall in H. exact (H b Hb).
Qed.

Lemma total_monotone_in_roe v h c g b r1 r2 :
  bucket 10 v -> bucket 10 h -> bucket 10 c -> bucket 10 g -> In b beta_values ->
  bucket 5 r1 -> bucket 5 r2 -> r1 <= r2 ->
  Py.le (fundamental_total v h (r1 + c) g b) (fundamental_total v h (r2 + c) g b) = true.
Proof.
  intros Hv Hh Hc Hg Hb H1 H2 Hle.
  pose proof totals_monotone_in_roe_ok as H.
  rewrite List.forallb_forall in H. specialize (H v (in_steps _ _ Hv)).
  rewrite List.forallb_forall in H. specialize (H h (in_steps _ _ Hh)).
  rewrite List.forallb_forall in H. specialize (H c (in_steps _ _ Hc)).
  rewrite List.forallb_forall in H. specialize (H g (in_steps _ _ Hg)).
  rewrite List.forallb_forall in H. specialize (H b Hb).
  rewrite List.forallb_forall in H. specialize (H r1 (in_steps _ _ H1)).
  rewrite List.forallb_forall in H. specialize (H r2 (in_steps _ _ H2)).
  apply Z.leb_le in Hle. rewrite Hle in H. exact H.
Qed.

Lemma categories_nonneg_facts :
  (forall s, bucket 10 s ->
     Py.le 0 (Py.Z2f s / 2 * 0.25)%float = true /\
     Py.le 0 (Py.Z2f s / 2 * 0.15)%float = true) /\
  (forall s, bucket 15 s -> Py.le 0 (Py.Z2f s / 3 * 0.25)%float = true) /\
  (forall b, In b beta_values ->
     Py.le (40 * 0.10) (Py.Z2f b * 0.10)%float = true /\
     Py.le 0 (Py.Z2f b * 0.10)%float = true).
Proof.
  pose proof categories_nonneg_ok as H. unfold categories_nonneg in H.
  apply andb_true_iff in H as [H H3]. apply andb_true_iff in H as [H1 H2].
  rewrite List.forallb_forall in H1, H2, H3.
  split; [|split].
  - intros s Hs. specialize (H1 s (in_steps _ _ Hs)).
    apply andb_true_iff in H1. exact H1.
  - intros s Hs. exact (H2 s (in_steps _ _ Hs)).
  - intros b Hb. specialize (H3 b Hb). apply andb_true_iff in H3. exact H3.
Qed.

Lemma get_insert_eq (m : gmap string float) k v d : Py.get (<[k := v]> m) k d = v.
Proof. unfold Py.get. now rewrite lookup_insert_eq. Qed.

Lemma get_insert_ne (m : gmap string float) k k' v d :
  k <> k' -> Py.get (<[k := v]> m) k' d = Py.get m k' d.
Proof. intros H. unfold Py.get. now rewrite lookup_insert_ne. Qed.

Lemma ge_4_not_zero x : Py.le 4 x = true -> (x =? 0)%float = false.
Proof.
  intros H. apply le_fcmp in H.
  destruct (x =? 0)%float eqn:E; [|reflexivity].
  apply eqb_fcmp in E.
  assert (fcmp 4 0 = Some Gt) as G by (vm_compute; reflexivity).
  destruct H as [H|H]; rewrite (fcmp_seq _ _ _ _ _ H E) in G by discriminate;
    discriminate G.
Qed.

(** C8: the fundamental total is monotone non-decreasing in the ROE, all
    other metrics fixed. *)
Theorem C8_fundamental_score_monotone_in_roe
    (m : gmap string float) (r1 r2 : float) :
  Py.le r1 r2 = true ->
  Py.le (fst (fundamental_score (<["roe" := r1]> m)))
        (fst (fundamental_score (<["roe" := r2]> m))) = true.
Proof.
  intros H. rewrite !fundamental_score_total.
  rewrite !get_insert_eq, !get_insert_ne by discriminate.
  rewrite <- !Z.add_assoc.
  apply total_monotone_in_roe.
  - apply (bucket_add 5 5); [apply bucket_pe | apply bucket_pb].
  - apply (bucket_add 5 5); [apply bucket_debt | apply bucket_current].
  - apply (bucket_add 5 5); [apply bucket_roa | apply bucket_margin].
  - apply (bucket_add 5 5); apply bucket_growth.
  - apply beta_in_values.
  - apply bucket_roe.
  - apply bucket_roe.
  - apply _score_roe_monotone, H.
Qed.

Lemma C8_witness :
  Py.le 0.04 0.21 = true /\
  fst (fundamental_score (<["roe" := 0.04%float]> zero_metrics)) = 19.166666666666664%float /\
  fst (fundamental_score (<["roe" := 0.21%float]> zero_metrics)) = 25.833333333333336%float /\
  Py.le (fst (fundamental_score (<["roe" := 0.04%float]> zero_metrics)))
        (fst (fundamental_score (<["roe" := 0.21%float]> zero_metrics))) = true.
Proof.
  assert (Py.le 0.04 0.21 = true) as H by (vm_compute; reflexivity).
  split; [exact H|].
  split; [vm_compute; reflexivity|].
  split; [vm_compute; reflexivity|].
  exact (C8_fundamental_score_monotone_in_roe zero_metrics _ _ H).
Defined.

(** C9: for every snapshot the fundamental total is at least 4.0: the
    beta bucket is at least 40, so the risk category is at least
    [40 * 0.10], every category of the breakdown is at least 0, and the
    total is never 0. *)
Theorem C9_fundamental_score_at_least_4 (m : gmap string float) :
  Py.le 4 (fst (fundamental_score m)) = true /\
  40 <= _score_beta (Py.get m "beta" 0) /\
  (exists r, snd (fundamental_score m) !! "risk" = Some r /\
             Py.le (40 * 0.10) r = true) /\
  (forall k v, snd (fundamental_score m) !! k = Some v -> Py.le 0 v = true) /\
  (40 * 0.10)%float = 4%float /\
  (fst (fundamental_score m) =? 0)%float = false.
Proof.
  assert (Py.le 4 (fst (fundamental_score m)) = true) as H4.
  { rewrite fundamental_score_total. apply total_ge_4.
    - apply (bucket_add 5 5); [apply bucket_pe | apply bucket_pb].
    - apply (bucket_add 5 5); [apply bucket_debt | apply bucket_current].
    - apply (bucket_add 10 5);
        [apply (bucket_add 5 5); [apply bucket_roe | apply bucket_roa]
        | apply bucket_margin].
    - apply (bucket_add 5 5); apply bucket_growth.
    - apply beta_in_values. }
  destruct categories_nonneg_facts as (F2 & F3 & Fb).
  assert (snd (fundamental_score m) =
    <["risk" := (Py.Z2f (_score_beta (Py.get m "beta" 0)) * 0.10)%float]>
    (<["growth" := (Py.Z2f (_score_growth (Py.get m "revenue_growth" 0)
                            + _score_growth (Py.get m "earnings_growth" 0)) / 2 * 0.15)%float]>
    (<["profitability" := (Py.Z2f (_score_roe (Py.get m "roe" 0)
                                   + _score_roa (Py.get m "roa" 0)
                                   + _score_profit_margin (Py.get m "profit_margins" 0))
                           / 3 * 0.25)%float]>
    (<["financial_health" := (Py.Z2f (_score_debt_to_equity (Py.get m "debt_to_equity" 0)
                                      + _score_current_ratio (Py.get m "current_ratio" 0))
                              / 2 * 0.25)%float]>
    (<["valuation" := (Py.Z2f (_score_pe_ratio (Py.get m "pe_ratio" 0)
                               + _score_price_to_book (Py.get m "price_to_book" 0))
                       / 2 * 0.25)%float]> ∅))))) as E by reflexivity.
  split; [exact H4|]. split; [apply beta_ge_40|]. split; [|split; [|split]].
  - eexists. split; [rewrite E; apply lookup_insert_eq|].
    apply Fb, beta_in_values.
  - intros k v Hk. rewrite E in Hk.
    repeat (apply lookup_insert_Some in Hk as [[_ <-]|[_ Hk]]).
    + apply Fb, beta_in_values.
    + apply F2. apply (bucket_add 5 5); apply bucket_growth.
    + apply F3. apply (bucket_add 10 5);
        [apply (bucket_add 5 5); [apply bucket_roe | apply bucket_roa]
        | apply bucket_margin].
    + apply F2. apply (bucket_add 5 5); [apply bucket_debt | apply bucket_current].
    + apply F2. apply (bucket_add 5 5); [apply bucket_pe | apply bucket_pb].
    + rewrite lookup_empty in Hk. discriminate Hk.
  - vm_compute. reflexivity.
  - apply ge_4_not_zero, H4.
Qed.

(** ** The signal generator *)

Ltac sublist_tac :=
  repeat first [ apply sublist_nil | apply sublist_skip | apply sublist_cons ].

Lemma short_frame_no_signals (data : DataFrame) :
  df_len data < 50 -> generate_signals data = [].
Proof.
  intros H. unfold generate_signals.
  apply Z.ltb_lt in H. rewrite H, orb_true_r. reflexivity.
Qed.

Lemma signals_in_order (data : DataFrame) :
  sublist (map sig_indicator (generate_signals data)) indicator_order.
Proof.
  unfold generate_signals, indicator_order.
  destruct (df_empty data || (df_len data <? 50)); [sublist_tac|].
  unfold try_except, bind, lift, append, skip, modify, ret.
  repeat match goal with
  | |- context [ last_of data ?c ] => destruct (last_of data c)
  end; simpl; try solve [sublist_tac];
  repeat match goal with
  | |- context [ if ?b then _ else _ ] => destruct b; simpl
  end; sublist_tac.
Qed.

(** C10: the signal generator returns at most three signals, at most one
    per indicator and in the order RSI, MACD, Bollinger Bands (the
    indicators of the signals form a sub-sequence of that list), and it
    returns the empty list for a frame of fewer than 50 bars. *)
Theorem C10_signals_at_most_one_per_indicator (data : DataFrame) :
  (length (generate_signals data) <= 3)%nat /\
  sublist (map sig_indicator (generate_signals data))
    ["RSI"; "MACD"; "Bollinger Bands"] /\
  (df_len data < 50 -> generate_signals data = []).
Proof.
  pose proof (signals_in_order data) as H.
  split; [|split].
  - apply sublist_length in H. rewrite length_map in H. exact H.
  - exact H.
  - apply short_frame_no_signals.
Qed.

Lemma C10_witness :
  df_len empty_frame < 50 /\
  generate_signals empty_frame = [] /\
  map sig_indicator (generate_signals frame_three_signals)
    = ["RSI"; "MACD"; "Bollinger Bands"].
Proof.
  split; [reflexivity|]. split.
  - apply (C10_signals_at_most_one_per_indicator empty_frame). reflexivity.
  - vm_compute. reflexivity.
Defined.

(** ** The stock analyzer *)

Lemma lt_not_ge a b : Py.lt a b = true -> Py.ge a b = false.
Proof.
  intros H. apply lt_fcmp in H. unfold Py.ge.
  destruct (b <=? a)%float eqn:E; [|reflexivity].
  change (Py.le b a = true) in E. apply le_fcmp in E.
  rewrite fcmp_opp, H in E. simpl in E. destruct E; discriminate.
Qed.

Section Analyzer.
Context (ta : TA) (pd : Numerics) (yf : YFinance).

Lemma analyze_stock_empty (sym : string) :
  df_empty (get_stock_data yf sym "1y") = true ->
  analyze_stock ta pd yf sym =
  mkAnalysis sym (get_fundamental_data yf sym) None 0 0 0 HOLD [] None None.
Proof.
  intros H. unfold analyze_stock. rewrite H. reflexivity.
Qed.

Lemma analyze_stock_recommendation (sym : string) :
  df_empty (get_stock_data yf sym "1y") = false ->
  recommendation (analyze_stock ta pd yf sym)
  = recommend (overall_score (analyze_stock ta pd yf sym)).
Proof.
  intros H. unfold analyze_stock. rewrite H. simpl.
  destruct (fundamental_score (get_fundamental_data yf sym)) as [fs fb].
  destruct (technical_score pd _) as [ts tb]. reflexivity.
Qed.

Lemma recommend_bounds (s : float) :
  (Py.ge s 80 = true -> recommend s = STRONG_BUY) /\
  (Py.lt s 80 = true -> Py.ge s 70 = true -> recommend s = BUY) /\
  (Py.lt s 70 = true -> Py.ge s 50 = true -> recommend s = HOLD) /\
  (Py.lt s 50 = true -> Py.ge s 30 = true -> recommend s = SELL) /\
  (Py.lt s 30 = true -> recommend s = STRONG_SELL).
Proof.
  assert (forall a b, Py.lt s a = true -> Py.le a b = true -> Py.ge s b = false) as D.
  { intros a b H1 H2. destruct (Py.ge s b) eqn:E; [|reflexivity].
    apply lt_not_ge in H1. unfold Py.ge in *.
    change (Py.le a s = false) in H1. change (Py.le b s = true) in E.
    rewrite (le_trans _ _ _ H2 E) in H1. discriminate. }
  unfold recommend. repeat split.
  - intros ->. reflexivity.
  - intros H1 ->. rewrite (lt_not_ge _ _ H1). reflexivity.
  - intros H1 ->. rewrite (D _ 80%float H1), (lt_not_ge _ _ H1) by reflexivity. reflexivity.
  - intros H1 ->.
    rewrite (D _ 80%float H1), (D _ 70%float H1), (lt_not_ge _ _ H1) by reflexivity. reflexivity.
  - intros H1.
    rewrite (D _ 80%float H1), (D _ 70%float H1), (D _ 50%float H1), (lt_not_ge _ _ H1) by reflexivity.
    reflexivity.
Qed.

End Analyzer.

(** ** The stable sort *)

Lemma lt_le a b : Py.lt a b = true -> Py.le a b = true.
Proof.
  intros H. apply lt_fcmp in H. apply le_fcmp. auto.
Qed.

Section SortFacts.
Context {A : Type} (key : A -> float) (lo : float).

Let le_key (a b : A) : Prop := Py.le (key a) (key b) = true.
Let comparable (a : A) : Prop := Py.le lo (key a) = true.

Lemma sort_insert_perm x l : Permutation (sort_insert key x l) (x :: l).
Proof.
  induction l as [|y l IH]; simpl; [reflexivity|].
  destruct (Py.lt (key y) (key x)); [|reflexivity].
  rewrite IH. apply perm_swap.
Qed.

Lemma sort_ascending_perm l : Permutation (sort_ascending key l) l.
Proof.
  induction l as [|x l IH]; simpl; [reflexivity|].
  rewrite sort_insert_perm. now apply perm_skip.
Qed.

Lemma sort_reverse_perm l : Permutation (sort_reverse key l) l.
Proof.
  unfold sort_reverse.
  rewrite <- Permutation_rev, sort_ascending_perm, <- Permutation_rev.
  reflexivity.
Qed.

Lemma sort_insert_sorted x l :
  comparable x -> Forall comparable l ->
  StronglySorted le_key l -> StronglySorted le_key (sort_insert key x l).
Proof.
  intros Hx Hl Hs. induction l as [|y l IH]; simpl.
  - repeat constructor.
  - apply StronglySorted_inv in Hs as [Hs Hy].
    apply List.Forall_cons_iff in Hl as [Hcy Hl].
    destruct (Py.lt (key y) (key x)) eqn:E.
    + constructor; [auto|].
      eapply Permutation_Forall; [symmetry; apply sort_insert_perm|].
      constructor; [|exact Hy]. apply lt_le, E.
    + assert (le_key x y) as Hxy by (apply (not_lt_le _ _ lo); assumption).
      constructor; [constructor; assumption|].
      constructor; [exact Hxy|].
      eapply List.Forall_impl; [|exact Hy].
      intros z Hz. eapply le_trans; eassumption.
Qed.

Lemma sort_ascending_sorted l :
  Forall comparable l -> StronglySorted le_key (sort_ascending key l).
Proof.
  induction l as [|x l IH]; simpl; intros H; [constructor|].
  apply List.Forall_cons_iff in H as [Hx Hl].
  apply sort_insert_sorted; auto.
  eapply Permutation_Forall; [symmetry; apply sort_ascending_perm|exact Hl].
Qed.

Lemma StronglySorted_snoc (R : A -> A -> Prop) l a :
  StronglySorted R l -> Forall (fun x => R x a) l -> StronglySorted R (l ++ [a]).
Proof.
  induction l as [|y l IH]; simpl; intros Hs Hf.
  - repeat constructor.
  - apply StronglySorted_inv in Hs as [Hs Hy].
    apply List.Forall_cons_iff in Hf as [Hya Hf].
    constructor; [auto|].
    apply List.Forall_app. split; [exact Hy|]. constructor; [exact Hya|constructor].
Qed.

Lemma StronglySorted_rev (R : A -> A -> Prop) l :
  StronglySorted R l -> StronglySorted (fun a b => R b a) (rev l).
Proof.
  induction 1 as [|a l Hs IH Ha]; simpl; [constructor|].
  apply StronglySorted_snoc; [exact IH|].
  apply List.Forall_forall. intros x Hx. apply in_rev in Hx.
  rewrite List.Forall_forall in Ha. auto.
Qed.

(** On a list whose keys are all comparable, [sort_reverse] yields a
    list that is descending by key. *)
Lemma sort_reverse_sorted l :
  Forall comparable l ->
  StronglySorted (fun a b => Py.ge (key a) (key b) = true) (sort_reverse key l).
Proof.
  intros H. unfold sort_reverse.
  apply (StronglySorted_rev le_key).
  apply sort_ascending_sorted.
  eapply Permutation_Forall; [apply Permutation_rev|exact H].
Qed.

(** Stability: the elements whose key is [==] to [k] keep their order. *)
Lemma sort_insert_stable k x l :
  List.filter (fun a => key a =? k)%float (sort_insert key x l)
  = List.filter (fun a => key a =? k)%float (x :: l).
Proof.
  induction l as [|y l IH]; [reflexivity|].
  simpl sort_insert. destruct (Py.lt (key y) (key x)) eqn:E; [|reflexivity].
  simpl in *. rewrite IH.
  destruct (key x =? k)%float eqn:Ex; [|reflexivity].
  rewrite (lt_not_eqb _ _ _ E Ex). reflexivity.
Qed.

Lemma sort_ascending_stable k l :
  List.filter (fun a => key a =? k)%float (sort_ascending key l)
  = List.filter (fun a => key a =? k)%float l.
Proof.
  induction l as [|x l IH]; [reflexivity|].
  simpl sort_ascending. rewrite sort_insert_stable. simpl. now rewrite IH.
Qed.

Lemma sort_reverse_stable k l :
  List.filter (fun a => key a =? k)%float (sort_reverse key l)
  = List.filter (fun a => key a =? k)%float l.
Proof.
  unfold sort_reverse.
  rewrite List.filter_rev, sort_ascending_stable, List.filter_rev.
  apply rev_involutive.
Qed.

End SortFacts.

(** ** The screener *)

Section Screener.
Context (ta : TA) (pd : Numerics) (yf : YFinance) (cfg : Config).

Lemma screened_filter (symbols : list string) :
  screened ta pd yf cfg symbols
  = List.filter (passes cfg) (map (analyze_stock ta pd yf) symbols).
Proof.
  induction symbols as [|sym rest IH]; simpl; [reflexivity|].
  rewrite IH. reflexivity.
Qed.

Lemma screened_pass (symbols : list string) :
  Forall (fun a => passes cfg a = true) (screened ta pd yf cfg symbols).
Proof.
  rewrite screened_filter. apply List.Forall_forall.
  intros a Ha. apply List.filter_In in Ha. tauto.
Qed.

Lemma screen_stocks_pass (symbols : list string) :
  Forall (fun a => passes cfg a = true) (screen_stocks ta pd yf cfg symbols).
Proof.
  unfold screen_stocks.
  eapply Permutation_Forall; [symmetry; apply sort_reverse_perm|].
  apply screened_pass.
Qed.

End Screener.

(** ** The sector allocation *)

Lemma weights_sum_to_one_ok :
  forallb weights_sum_to_one (seq 1 11) = true.
Proof. vm_compute. reflexivity. Qed.

Lemma dict_set_fresh {V} (d : list (string * V)) k v :
  ~ In k (map fst d) -> dict_set d k v = d ++ [(k, v)].
Proof.
  induction d as [|[k' v'] d IH]; simpl; intros H; [reflexivity|].
  destruct (String.eqb k' k) eqn:E.
  - apply String.eqb_eq in E. tauto.
  - rewrite IH by tauto. reflexivity.
Qed.

Lemma dict_set_mid {V} (d rest : list (string * V)) k w v :
  ~ In k (map fst d) -> dict_set (d ++ (k, w) :: rest) k v = d ++ (k, v) :: rest.
Proof.
  induction d as [|[k' v'] d IH]; simpl; intros H.
  - now rewrite String.eqb_refl.
  - destruct (String.eqb k' k) eqn:E.
    + apply String.eqb_eq in E. tauto.
    + rewrite IH by tauto. reflexivity.
Qed.

Lemma dict_get_mid {V} (d rest : list (string * V)) k w :
  ~ In k (map fst d) -> dict_get (d ++ (k, w) :: rest) k = Some w.
Proof.
  induction d as [|[k' v'] d IH]; simpl; intros H.
  - now rewrite String.eqb_refl.
  - destruct (String.eqb k' k) eqn:E.
    + apply String.eqb_eq in E. tauto.
    + apply IH. tauto.
Qed.

Lemma sector_scores_spec (sa : list (string * SectorProfile)) acc :
  List.NoDup (map fst acc ++ map fst sa) ->
  fold_left (fun d '(sector, data) => dict_set d sector (momentum data)) sa acc
  = acc ++ map (fun '(sector, data) => (sector, momentum data)) sa.
Proof.
  revert acc. induction sa as [|[k p] sa IH]; intros acc H; simpl.
  - now rewrite app_nil_r.
  - simpl in H. pose proof (List.NoDup_remove_2 _ _ _ H) as Hk.
    rewrite dict_set_fresh by (intros C; apply Hk, in_or_app; auto).
    rewrite IH.
    + rewrite <- app_assoc. reflexivity.
    + rewrite map_app, <- app_assoc. exact H.
Qed.

Lemma allocate_spec (l acc : list (string * float)) i t :
  List.NoDup (map fst acc ++ map fst l) ->
  allocate i l acc t
  = (acc ++ combine (map fst l) (raw_weights i (length l)),
     fold_left PrimFloat.add (raw_weights i (length l)) t).
Proof.
  revert acc i t. induction l as [|[k s] l IH]; intros acc i t H; simpl.
  - now rewrite app_nil_r.
  - simpl in H. pose proof (List.NoDup_remove_2 _ _ _ H) as Hk.
    rewrite dict_set_fresh by (intros C; apply Hk, in_or_app; auto).
    rewrite IH.
    + rewrite <- app_assoc. reflexivity.
    + rewrite map_app, <- app_assoc. exact H.
Qed.

Lemma normalize_spec (todo done : list (string * float)) t :
  List.NoDup (map fst done ++ map fst todo) ->
  normalize (map fst todo) (done ++ todo) t
  = done ++ map (fun '(k, w) => (k, (w / t)%float)) todo.
Proof.
  revert done. induction todo as [|[k w] todo IH]; intros done H; simpl.
  - reflexivity.
  - simpl in H. pose proof (List.NoDup_remove_2 _ _ _ H) as Hk.
    assert (~ In k (map fst done)) as Hd by (intros C; apply Hk, in_or_app; auto).
    rewrite dict_get_mid, dict_set_mid by exact Hd.
    change (done ++ (k, (w / t)%float) :: todo)
      with (done ++ [(k, (w / t)%float)] ++ todo).
    rewrite app_assoc, IH.
    + rewrite <- app_assoc. reflexivity.
    + rewrite map_app, <- app_assoc. exact H.
Qed.

Lemma combine_fst {X Y} (a : list X) (b : list Y) :
  length a = length b -> map fst (combine a b) = a.
Proof.
  revert b. induction a as [|x a IH]; intros [|y b] H; simpl in *;
    try discriminate; [reflexivity|].
  f_equal. apply IH. lia.
Qed.

Lemma combine_snd {X Y} (a : list X) (b : list Y) :
  length a = length b -> map snd (combine a b) = b.
Proof.
  revert b. induction a as [|x a IH]; intros [|y b] H; simpl in *;
    try discriminate; [reflexivity|].
  f_equal. apply IH. lia.
Qed.

Lemma raw_weights_length i n : length (raw_weights i n) = n.
Proof.
  revert i. induction n as [|n IH]; intros i; simpl; [reflexivity|].
  now rewrite IH.
Qed.

(** The allocation of [n] distinct sectors holds the sectors in rank order
    and the normalized weights of [n] sectors. *)
Lemma sector_allocation_spec (pd : Numerics) (top : list Analysis)
    (sa : list (string * SectorProfile)) :
  List.NoDup (map fst sa) ->
  let alloc := sector_allocation (generate_portfolio_recommendations pd top sa) in
  map fst alloc
  = map fst (sort_reverse snd (map (fun '(sector, data) => (sector, momentum data)) sa))
  /\ map snd alloc = normalized_weights (length sa).
Proof.
  intros H. unfold generate_portfolio_recommendations.
  rewrite (sector_scores_spec sa []) by exact H. simpl app.
  set (scores := map (fun '(sector, data) => (sector, momentum data)) sa).
  set (sorted := sort_reverse snd scores).
  assert (Permutation sorted scores) as P by apply sort_reverse_perm.
  assert (map fst scores = map fst sa) as Ek.
  { unfold scores. rewrite map_map. apply map_ext. now intros [k p]. }
  assert (List.NoDup (map fst sorted)) as Hs.
  { eapply Permutation_NoDup; [apply Permutation_map; symmetry; exact P|].
    rewrite Ek. exact H. }
  assert (length sorted = length sa) as El.
  { rewrite (Permutation_length P). unfold scores. apply length_map. }
  rewrite (allocate_spec sorted [] 0 0%float) by exact Hs. simpl app.
  set (ws := raw_weights 0 (length sorted)).
  set (total := fold_left PrimFloat.add ws 0%float).
  assert (length (map fst sorted) = length ws) as Ec.
  { unfold ws. now rewrite raw_weights_length, length_map. }
  simpl sector_allocation.
  assert (List.NoDup (map fst (@nil (string * float))
                      ++ map fst (combine (map fst sorted) ws))) as Hc
    by (simpl; rewrite combine_fst by exact Ec; exact Hs).
  pose proof (normalize_spec (combine (map fst sorted) ws) [] total Hc) as N.
  simpl app in N. rewrite N. clear N. split.
  - rewrite map_map.
    rewrite <- (combine_fst (map fst sorted) ws Ec) at 2.
    apply map_ext. now intros [k w].
  - unfold normalized_weights. rewrite <- El. fold ws. fold total.
    rewrite <- (combine_snd (map fst sorted) ws Ec) at 2.
    rewrite !map_map. apply map_ext. now intros [k w].
Qed.

(** C7: for a sector-analysis dictionary of 1 to 11 sectors, the weights
    of the sector allocation sum to 1.0 within 1e-9: their exact sum is
    within 1e-9 of 1, and so is their sum computed in floats from left to
    right. *)
Theorem C7_sector_allocation_sums_to_one
    (pd : Numerics) (top : list Analysis) (sa : list (string * SectorProfile)) :
  List.NoDup (map fst sa) ->
  (1 <= length sa <= 11)%nat ->
  let weights :=
    map snd (sector_allocation (generate_portfolio_recommendations pd top sa)) in
  length weights = length sa /\
  (exists q, exact_sum weights = Some q /\ (Qabs (q - 1) <= 1 # 1000000000)%Q) /\
  Py.le (abs (sum_floats weights - 1)) 1e-9 = true.
Proof.
  intros H Hn weights. subst weights.
  destruct (sector_allocation_spec pd top sa H) as [_ ->].
  pose proof weights_sum_to_one_ok as C.
  rewrite List.forallb_forall in C.
  specialize (C (length sa)). 
  assert (In (length sa) (seq 1 11)) as Hin by (apply List.in_seq; lia).
  specialize (C Hin). unfold weights_sum_to_one in C.
  apply andb_true_iff in C as [C1 C2].
  split; [|split].
  - unfold normalized_weights. now rewrite length_map, raw_weights_length.
  - destruct (exact_sum (normalized_weights (length sa))) as [q|]; [|discriminate].
    exists q. split; [reflexivity|]. apply Qle_bool_iff. exact C1.
  - exact C2.
Qed.

Lemma C7_witness :
  List.NoDup (map fst sectors_demo) /\
  (1 <= length sectors_demo <= 11)%nat /\
  map fst (sector_allocation
             (generate_portfolio_recommendations numerics_left_to_right [] sectors_demo))
  = ["Energy"; "Technology"; "Utilities"] /\
  Py.le (abs (sum_floats
                (map snd (sector_allocation
                            (generate_portfolio_recommendations
                               numerics_left_to_right [] sectors_demo))) - 1))
        1e-9 = true.
Proof.
  assert (List.NoDup (map fst sectors_demo)) as H
    by (repeat constructor; simpl; intuition discriminate).
  assert (1 <= length sectors_demo <= 11)%nat as Hn by (simpl; lia).
  split; [exact H|]. split; [exact Hn|]. split; [vm_compute; reflexivity|].
  exact (proj2 (proj2 (C7_sector_allocation_sums_to_one
                         numerics_left_to_right [] sectors_demo H Hn))).
Defined.

(** ** The trend score *)

(** The last five row labels and the five before them differ when the
    labels are distinct. *)
Lemma slices_differ (idx : list Z) :
  List.NoDup idx -> (10 <= length idx)%nat ->
  slice_from_end 5 0 idx <> slice_from_end 10 5 idx.
Proof.
  intros Hnd Hlen. unfold slice_from_end.
  set (n := length idx) in *.
  set (r := skipn (n - 10) idx).
  assert (length r = 10%nat) as Hr by (unfold r; rewrite length_skipn; lia).
  assert (List.NoDup r) as Hndr.
  { rewrite <- (firstn_skipn (n - 10) idx) in Hnd.
    apply NoDup_app_remove_l in Hnd. exact Hnd. }
  replace (skipn (n - 0) idx) with (@nil Z)
    by (symmetry; apply skipn_all2; unfold n; lia).
  replace (skipn (n - 5) idx) with (skipn 5 r)
    by (unfold r; rewrite skipn_skipn; f_equal; lia).
  replace (n - 0 - (n - 5))%nat with 5%nat by lia.
  replace (n - 5 - (n - 10))%nat with 5%nat by lia.
  fold r.
  do 10 (destruct r as [|? r]; [discriminate Hr|]).
  simpl. intros E. injection E as E0 _.
  apply List.NoDup_cons_iff in Hndr as [Hx _].
  apply Hx. subst. simpl. auto 10.
Qed.

(** On every frame of at least 50 bars with distinct row labels whose
    [Close], [SMA_20] and [SMA_50] columns can be read, the comparison of
    the two slices raises, so [_calculate_trend_score] raises and
    [technical_score] returns [(0, {})]. *)
Lemma trend_score_raises (data : DataFrame) c a b :
  50 <= df_len data -> List.NoDup (df_index data) ->
  last_of data "Close" = Ok c ->
  last_of data "SMA_20" = Ok a ->
  last_of data "SMA_50" = Ok b ->
  _calculate_trend_score data
  = Raise (ValueError "Can only compare identically-labeled Series objects").
Proof.
  intros Hlen Hnd Hc Ha Hb. unfold _calculate_trend_score.
  destruct (df_len data <? 50) eqn:E; [apply Z.ltb_lt in E; lia|].
  rewrite Hc, Ha, Hb.
  unfold last_of in Hc. destruct (getitem data "Close") as [close|e] eqn:G;
    [|discriminate Hc].
  assert (s_index close = df_index data) as Ei.
  { unfold getitem in G. destruct (df_columns data !! "Close"); [|discriminate G].
    injection G as <-. reflexivity. }
  unfold series_gt, iloc_slice. simpl s_index. rewrite Ei.
  rewrite bool_decide_eq_false_2; [reflexivity|].
  apply slices_differ; [exact Hnd|].
  unfold df_len in Hlen. lia.
Qed.

Lemma technical_score_zero (pd : Numerics) (data : DataFrame) c a b :
  50 <= df_len data -> List.NoDup (df_index data) ->
  last_of data "Close" = Ok c ->
  last_of data "SMA_20" = Ok a ->
  last_of data "SMA_50" = Ok b ->
  technical_score pd data = (0%float, ∅).
Proof.
  intros Hlen Hnd Hc Ha Hb. unfold technical_score.
  destruct (df_empty data || (df_len data <? 50)); [reflexivity|].
  rewrite (trend_score_raises data c a b Hlen Hnd Hc Ha Hb).
  reflexivity.
Qed.

(** C2 (code defect): on fifty daily bars with rising closes and every
    indicator column present, [_calculate_trend_score] does not return a
    score with a consistency term: the comparison of [iloc[-5:]] with
    [iloc[-10:-5]] raises [ValueError], and [technical_score] returns
    [(0, {})] with no trend entry. *)
Theorem C2_trend_score_raises_on_bars_50 :
  df_len (calculate_technical_indicators ta_echo bars_50) = 50 /\
  _calculate_trend_score (calculate_technical_indicators ta_echo bars_50)
  = Raise (ValueError "Can only compare identically-labeled Series objects") /\
  (forall pd : Numerics,
     technical_score pd (calculate_technical_indicators ta_echo bars_50)
     = (0%float, ∅)).
Proof.
  split; [vm_compute; reflexivity|].
  split; [vm_compute; reflexivity|].
  intros pd.
  apply (technical_score_zero pd _ 149 149 149)%float.
  - vm_compute. discriminate.
  - vm_compute. repeat constructor; simpl; intuition discriminate.
  - vm_compute. reflexivity.
  - vm_compute. reflexivity.
  - vm_compute. reflexivity.
Qed.

(** ** The claims on the analyzer and the screener *)

(** C3: when the fetched price history of a symbol is empty,
    [analyze_stock] returns the analysis with [overall_score] 0,
    recommendation [HOLD] and no signal.  [analyze_stock] is a total
    function: it returns an analysis for every symbol and every behaviour
    of the collaborators, raising ones included. *)
Theorem C3_empty_history (ta : TA) (pd : Numerics) (yf : YFinance) (sym : string) :
  df_empty (get_stock_data yf sym "1y") = true ->
  overall_score (analyze_stock ta pd yf sym) = 0%float /\
  recommendation (analyze_stock ta pd yf sym) = HOLD /\
  signals (analyze_stock ta pd yf sym) = [].
Proof.
  intros H. rewrite (analyze_stock_empty ta pd yf sym H). auto.
Qed.

Lemma C3_witness :
  df_empty (get_stock_data yf_demo "NONE" "1y") = true /\
  overall_score (analyze_stock ta_echo numerics_left_to_right yf_demo "NONE") = 0%float /\
  recommendation (analyze_stock ta_echo numerics_left_to_right yf_demo "NONE") = HOLD /\
  signals (analyze_stock ta_echo numerics_left_to_right yf_demo "NONE") = [].
Proof.
  assert (df_empty (get_stock_data yf_demo "NONE" "1y") = true) as H
    by (vm_compute; reflexivity).
  split; [exact H|].
  exact (C3_empty_history ta_echo numerics_left_to_right yf_demo "NONE" H).
Defined.

(** A client that raises gives an empty history as well. *)
Lemma raising_history_is_empty (yf : YFinance) (sym : string) (e : exn) :
  history yf sym "1y" = Raise e -> df_empty (get_stock_data yf sym "1y") = true.
Proof.
  intros H. unfold get_stock_data. rewrite H. reflexivity.
Qed.

(** C4: for a non-empty price history the recommendation is read off the
    overall score by inclusive lower bounds: at least 80 gives
    [STRONG_BUY], otherwise at least 70 gives [BUY], otherwise at least 50
    gives [HOLD], otherwise at least 30 gives [SELL], and a score below 30
    gives [STRONG_SELL]; the six boundary scores classify as stated. *)
Theorem C4_recommendation_thresholds
    (ta : TA) (pd : Numerics) (yf : YFinance) (sym : string) :
  df_empty (get_stock_data yf sym "1y") = false ->
  let a := analyze_stock ta pd yf sym in
  let s := overall_score a in
  (Py.ge s 80 = true -> recommendation a = STRONG_BUY) /\
  (Py.lt s 80 = true -> Py.ge s 70 = true -> recommendation a = BUY) /\
  (Py.lt s 70 = true -> Py.ge s 50 = true -> recommendation a = HOLD) /\
  (Py.lt s 50 = true -> Py.ge s 30 = true -> recommendation a = SELL) /\
  (Py.lt s 30 = true -> recommendation a = STRONG_SELL) /\
  recommend 80.0 = STRONG_BUY /\
  recommend 79.999 = BUY /\
  recommend 70.0 = BUY /\
  recommend 49.999 = SELL /\
  recommend 30.0 = SELL /\
  recommend 29.999 = STRONG_SELL.
Proof.
  intros H a s. subst a s.
  rewrite (analyze_stock_recommendation ta pd yf sym H).
  destruct (recommend_bounds (overall_score (analyze_stock ta pd yf sym)))
    as (B1 & B2 & B3 & B4 & B5).
  repeat split; auto.
Qed.

Lemma C4_witness :
  df_empty (get_stock_data yf_demo "GOOD" "1y") = false /\
  overall_score (analyze_stock ta_echo numerics_left_to_right yf_demo "GOOD") = 60%float /\
  recommendation (analyze_stock ta_echo numerics_left_to_right yf_demo "GOOD") = HOLD.
Proof.
  assert (df_empty (get_stock_data yf_demo "GOOD" "1y") = false) as N
    by (vm_compute; reflexivity).
  assert (overall_score (analyze_stock ta_echo numerics_left_to_right yf_demo "GOOD")
          = 60%float) as E by (vm_compute; reflexivity).
  split; [exact N|]. split; [exact E|].
  destruct (C4_recommendation_thresholds ta_echo numerics_left_to_right yf_demo "GOOD" N)
    as (_ & _ & B3 & _).
  apply B3; rewrite E; vm_compute; reflexivity.
Defined.

(** C5: the screener output is descending by overall score, and the
    analyses of equal score are in the order in which the loop over the
    input symbols produced them. *)
Theorem C5_screen_sorted_stable
    (ta : TA) (pd : Numerics) (yf : YFinance) (cfg : Config) (symbols : list string) :
  StronglySorted (fun a b => Py.ge (overall_score a) (overall_score b) = true)
    (screen_stocks ta pd yf cfg symbols) /\
  (forall k : float,
     List.filter (fun a => overall_score a =? k)%float (screen_stocks ta pd yf cfg symbols)
     = List.filter (fun a => overall_score a =? k)%float
         (List.filter (passes cfg) (map (analyze_stock ta pd yf) symbols))).
Proof.
  split.
  - unfold screen_stocks. apply (sort_reverse_sorted overall_score 60%float).
    eapply List.Forall_impl; [|apply (screened_pass ta pd yf cfg)].
    intros a Ha. unfold passes in Ha.
    apply andb_true_iff in Ha as [_ Ha]. exact Ha.
  - intros k. unfold screen_stocks.
    rewrite sort_reverse_stable, screened_filter. reflexivity.
Qed.

(** C6: every analysis the screener returns has a market capitalisation
    of at least [min_market_cap], a volume of at least [min_volume] and an
    overall score of at least 60. *)
Theorem C6_screened_meet_minimums
    (ta : TA) (pd : Numerics) (yf : YFinance) (cfg : Config)
    (symbols : list string) (a : Analysis) :
  In a (screen_stocks ta pd yf cfg symbols) ->
  Py.ge (Py.get (fundamental_data a) "market_cap" 0) (min_market_cap cfg) = true /\
  Py.ge (Py.get (fundamental_data a) "volume" 0) (min_volume cfg) = true /\
  Py.ge (overall_score a) 60 = true.
Proof.
  intros H.
  pose proof (screen_stocks_pass ta pd yf cfg symbols) as P.
  rewrite List.Forall_forall in P. specialize (P a H).
  unfold passes in P.
  apply andb_true_iff in P as [P P3]. apply andb_true_iff in P as [P1 P2].
  auto.
Qed.

Lemma C6_witness :
  In (analyze_stock ta_echo numerics_left_to_right yf_demo "GOOD")
     (screen_stocks ta_echo numerics_left_to_right yf_demo default_config ["WEAK"; "GOOD"; "NONE"]) /\
  Py.ge (Py.get (fundamental_data
                   (analyze_stock ta_echo numerics_left_to_right yf_demo "GOOD"))
           "market_cap" 0) (min_market_cap default_config) = true.
Proof.
  assert (screen_stocks ta_echo numerics_left_to_right yf_demo default_config ["WEAK"; "GOOD"; "NONE"]
          = [analyze_stock ta_echo numerics_left_to_right yf_demo "GOOD"]) as E
    by (vm_compute; reflexivity).
  assert (In (analyze_stock ta_echo numerics_left_to_right yf_demo "GOOD")
             (screen_stocks ta_echo numerics_left_to_right yf_demo default_config
                ["WEAK"; "GOOD"; "NONE"])) as H
    by (rewrite E; left; reflexivity).
  split; [exact H|].
  exact (proj1 (C6_screened_meet_minimums ta_echo numerics_left_to_right yf_demo default_config _ _ H)).
Defined.

(** ** Further properties of the fundamental scorer *)

Lemma le_refl_comparable lo x : Py.le lo x = true -> Py.le x x = true.
Proof.
  intros H. apply le_fcmp in H. apply le_fcmp.
  assert (exists c, fcmp x x = Some c) as [c Hc].
  { unfold fcmp in *.
    assert (exists c1, SFcompare (Prim2SF x) (Prim2SF lo) = Some c1) as [c1 H1].
    { rewrite SFcompare_opp. destruct H as [-> | ->]; simpl; eauto. }
    destruct H as [H|H]; eapply SFcompare_defined; eauto. }
  pose proof (fcmp_opp x x) as O. rewrite Hc in O. simpl in O.
  injection O as O. destruct c; try discriminate O. auto.
Qed.

Lemma le_lt_trans a b c : Py.le a b = true -> Py.lt b c = true -> Py.lt a c = true.
Proof.
  intros H1 H2. apply le_fcmp in H1. apply lt_fcmp in H2. apply lt_fcmp.
  destruct H1 as [H1|H1]; rewrite (fcmp_seq _ _ _ _ _ H1 H2) by discriminate;
    reflexivity.
Qed.

Lemma lt_le_trans a b c : Py.lt a b = true -> Py.le b c = true -> Py.lt a c = true.
Proof.
  intros H1 H2. apply lt_fcmp in H1. apply le_fcmp in H2. apply lt_fcmp.
  destruct H2 as [H2|H2]; rewrite (fcmp_seq _ _ _ _ _ H1 H2) by discriminate;
    reflexivity.
Qed.

Lemma le_not_lt a b : Py.le a b = true -> Py.lt b a = false.
Proof.
  intros H. destruct (Py.lt b a) eqn:E; [|reflexivity].
  apply lt_not_ge in E. unfold Py.ge in E. change (Py.le a b = false) in E.
  congruence.
Qed.

Lemma totals_le_100_ok :
  ltac:(let t := eval unfold totals_le_100 in (totals_le_100 = true) in exact t).
Proof. vm_cast_no_check (eq_refl true). Qed.

Lemma totals_step_up_ok :
  ltac:(let t := eval unfold totals_step_up in (totals_step_up = true) in exact t).
Proof. vm_cast_no_check (eq_refl true). Qed.

Lemma total_le_100 v h p g b :
  bucket 10 v -> bucket 10 h -> bucket 15 p -> bucket 10 g -> In b beta_values ->
  Py.le (fundamental_total v h p g b) 100 = true.
Proof.
  intros Hv Hh Hp Hg Hb.
  pose proof totals_le_100_ok as H.
  rewrite List.forallb_forall in H. specialize (H v (in_steps _ _ Hv)).
  rewrite List.forallb_forall in H. specialize (H h (in_steps _ _ Hh)).
  rewrite List.forallb_forall in H. specialize (H p (in_steps _ _ Hp)).
  rewrite List.forallb_forall in H. specialize (H g (in_steps _ _ Hg)).
  rewrite List.forallb_forall in H. exact (H b Hb).
Qed.

Lemma total_step_up v h p g b :
  bucket 10 v -> bucket 10 h -> bucket 15 p -> bucket 10 g -> In b beta_values ->
  Py.le (fundamental_total v h p g b) (fundamental_total (v + 20) h p g b) = true /\
  Py.le (fundamental_total v h p g b) (fundamental_total v (h + 20) p g b) = true /\
  Py.le (fundamental_total v h p g b) (fundamental_total v h (p + 20) g b) = true /\
  Py.le (fundamental_total v h p g b) (fundamental_total v h p (g + 20) b) = true.
Proof.
  intros Hv Hh Hp Hg Hb.
  pose proof totals_step_up_ok as H.
  rewrite List.forallb_forall in H. specialize (H v (in_steps _ _ Hv)).
  rewrite List.forallb_forall in H. specialize (H h (in_steps _ _ Hh)).
  rewrite List.forallb_forall in H. specialize (H p (in_steps _ _ Hp)).
  rewrite List.forallb_forall in H. specialize (H g (in_steps _ _ Hg)).
  rewrite List.forallb_forall in H. specialize (H b Hb).
  cbv zeta in H.
  apply andb_true_iff in H as [H H4]. apply andb_true_iff in H as [H H3].
  apply andb_true_iff in H as [H1 H2]. auto.
Qed.

(** A function on bucket sums that never decreases along a step of 20 is
    monotone. *)
Lemma steps_monotone (F : Z -> float) (n : nat) :
  (forall x, bucket n x -> Py.le (F x) (F (x + 20)) = true) ->
  (forall x, bucket n x -> Py.le (F x) (F x) = true) ->
  forall x y, bucket n x -> bucket n y -> x <= y -> Py.le (F x) (F y) = true.
Proof.
  intros Hstep Hrefl x y (i & Hi & ->) (j & Hj & ->) Hle.
  assert (i <= j)%nat as Hij by lia. clear Hle.
  induction j as [|j IH].
  - replace i with 0%nat by lia. apply Hrefl. exists 0%nat. split; [lia|reflexivity].
  - destruct (Nat.eq_dec i (S j)) as [->|Hne].
    + apply Hrefl. exists (S j). split; [lia|reflexivity].
    + apply le_trans with (F (20 * Z.of_nat j)).
      * apply IH; lia.
      * replace (20 * Z.of_nat (S j)) with (20 * Z.of_nat j + 20) by lia.
        apply Hstep. exists j. split; [lia|reflexivity].
Qed.

Lemma total_refl v h p g b :
  bucket 10 v -> bucket 10 h -> bucket 15 p -> bucket 10 g -> In b beta_values ->
  Py.le (fundamental_total v h p g b) (fundamental_total v h p g b) = true.
Proof.
  intros. apply (le_refl_comparable 4). now apply total_ge_4.
Qed.

Lemma total_mono_v v1 v2 h p g b :
  bucket 10 v1 -> bucket 10 v2 -> bucket 10 h -> bucket 15 p -> bucket 10 g ->
  In b beta_values -> v1 <= v2 ->
  Py.le (fundamental_total v1 h p g b) (fundamental_total v2 h p g b) = true.
Proof.
  intros H1 H2 Hh Hp Hg Hb Hle.
  apply (steps_monotone (fun v => fundamental_total v h p g b) 10); auto.
  - intros x Hx. now apply total_step_up.
  - intros x Hx. now apply total_refl.
Qed.

Lemma total_mono_h v h1 h2 p g b :
  bucket 10 v -> bucket 10 h1 -> bucket 10 h2 -> bucket 15 p -> bucket 10 g ->
  In b beta_values -> h1 <= h2 ->
  Py.le (fundamental_total v h1 p g b) (fundamental_total v h2 p g b) = true.
Proof.
  intros Hv H1 H2 Hp Hg Hb Hle.
  apply (steps_monotone (fun h => fundamental_total v h p g b) 10); auto.
  - intros x Hx. now apply total_step_up.
  - intros x Hx. now apply total_refl.
Qed.

Lemma total_mono_p v h p1 p2 g b :
  bucket 10 v -> bucket 10 h -> bucket 15 p1 -> bucket 15 p2 -> bucket 10 g ->
  In b beta_values -> p1 <= p2 ->
  Py.le (fundamental_total v h p1 g b) (fundamental_total v h p2 g b) = true.
Proof.
  intros Hv Hh H1 H2 Hg Hb Hle.
  apply (steps_monotone (fun p => fundamental_total v h p g b) 15); auto.
  - intros x Hx. now apply total_step_up.
  - intros x Hx. now apply total_refl.
Qed.

Lemma total_mono_g v h p g1 g2 b :
  bucket 10 v -> bucket 10 h -> bucket 15 p -> bucket 10 g1 -> bucket 10 g2 ->
  In b beta_values -> g1 <= g2 ->
  Py.le (fundamental_total v h p g1 b) (fundamental_total v h p g2 b) = true.
Proof.
  intros Hv Hh Hp H1 H2 Hb Hle.
  apply (steps_monotone (fun g => fundamental_total v h p g b) 10); auto.
  - intros x Hx. now apply total_step_up.
  - intros x Hx. now apply total_refl.
Qed.

Ltac float_hyps :=
  unfold Py.ge, Py.gt in *;
  repeat match goal with
  | H0 : (?a <=? ?b)%float = _ |- _ => change (a <=? b)%float with (Py.le a b) in H0
  | H0 : (?a <? ?b)%float = _ |- _ => change (a <? b)%float with (Py.lt a b) in H0
  end.

Ltac float_absurd :=
  float_hyps;
  repeat match goal with
  | H1 : Py.le ?a ?b = true, H2 : Py.le ?b ?c = true, H3 : Py.le ?a ?c = false |- _ =>
      rewrite (le_trans _ _ _ H1 H2) in H3; discriminate H3
  | H1 : Py.le ?a ?b = true, H2 : Py.lt ?b ?c = true, H3 : Py.lt ?a ?c = false |- _ =>
      rewrite (le_lt_trans _ _ _ H1 H2) in H3; discriminate H3
  | H1 : Py.lt ?a ?b = true, H2 : Py.le ?b ?c = true, H3 : Py.lt ?a ?c = false |- _ =>
      rewrite (lt_le_trans _ _ _ H1 H2) in H3; discriminate H3
  | H1 : Py.le ?a ?b = true, H2 : Py.lt ?b ?a = true |- _ =>
      rewrite (le_not_lt _ _ H1) in H2; discriminate H2
  | H1 : Py.lt ?a ?b = true, H2 : Py.le ?b ?a = true |- _ =>
      rewrite (le_not_lt _ _ H2) in H1; discriminate H1
  end.

Ltac split_ifs :=
  repeat match goal with
  | |- context [ if ?b then _ else _ ] => destruct b eqn:?
  end.

Lemma _score_roa_monotone r1 r2 :
  Py.le r1 r2 = true -> _score_roa r1 <= _score_roa r2.
Proof.
  intros H. unfold _score_roa. split_ifs; try lia; exfalso; float_absurd.
Qed.

Lemma _score_profit_margin_monotone r1 r2 :
  Py.le r1 r2 = true -> _score_profit_margin r1 <= _score_profit_margin r2.
Proof.
  intros H. unfold _score_profit_margin. split_ifs; try lia; exfalso; float_absurd.
Qed.

Lemma _score_growth_monotone r1 r2 :
  Py.le r1 r2 = true -> _score_growth r1 <= _score_growth r2.
Proof.
  intros H. unfold _score_growth. split_ifs; try lia; exfalso; float_absurd.
Qed.

Lemma _score_current_ratio_monotone r1 r2 :
  Py.le r1 r2 = true -> _score_current_ratio r1 <= _score_current_ratio r2.
Proof.
  intros H. unfold _score_current_ratio. split_ifs; try lia; exfalso; float_absurd.
Qed.

Lemma _score_debt_to_equity_antitone d1 d2 :
  Py.le 0 d1 = true -> Py.le d1 d2 = true ->
  _score_debt_to_equity d2 <= _score_debt_to_equity d1.
Proof.
  intros H0 H. unfold _score_debt_to_equity. split_ifs; try lia; exfalso; float_absurd.
Qed.

Lemma _score_pe_ratio_antitone x1 x2 :
  Py.lt 0 x1 = true -> Py.le x1 x2 = true -> Py.le x2 100 = true ->
  _score_pe_ratio x2 <= _score_pe_ratio x1.
Proof.
  intros H0 H H100. unfold _score_pe_ratio.
  assert (Py.le x1 100 = true) as H1 by (eapply le_trans; eassumption).
  assert (Py.lt 0 x2 = true) as H2 by (eapply lt_le_trans; eassumption).
  split_ifs; try lia; exfalso;
    repeat match goal with
    | H : _ || _ = true |- _ => apply orb_true_iff in H as [H|H]
    | H : _ || _ = false |- _ => apply orb_false_iff in H as [? ?]
    end; float_absurd.
Qed.

Lemma _score_price_to_book_antitone x1 x2 :
  Py.lt 0 x1 = true -> Py.le x1 x2 = true -> Py.le x2 10 = true ->
  _score_price_to_book x2 <= _score_price_to_book x1.
Proof.
  intros H0 H H10. unfold _score_price_to_book.
  assert (Py.le x1 10 = true) as H1 by (eapply le_trans; eassumption).
  assert (Py.lt 0 x2 = true) as H2 by (eapply lt_le_trans; eassumption).
  split_ifs; try lia; exfalso;
    repeat match goal with
    | H : _ || _ = true |- _ => apply orb_true_iff in H as [H|H]
    | H : _ || _ = false |- _ => apply orb_false_iff in H as [? ?]
    end; float_absurd.
Qed.

Ltac fund_buckets :=
  first
    [ apply beta_in_values
    | apply (bucket_add 5 5); [apply bucket_pe | apply bucket_pb]
    | apply (bucket_add 5 5); [apply bucket_debt | apply bucket_current]
    | apply (bucket_add 10 5);
        [apply (bucket_add 5 5); [apply bucket_roe | apply bucket_roa]
        | apply bucket_margin]
    | apply (bucket_add 5 5); apply bucket_growth ].

(** X1: the fundamental total never exceeds 100, for every snapshot. *)
Theorem X1_fundamental_score_at_most_100 (m : gmap string float) :
  Py.le (fst (fundamental_score m)) 100 = true.
Proof.
  rewrite fundamental_score_total. apply total_le_100; fund_buckets.
Qed.

(** X2: a snapshot whose ten metrics all fall in their best bucket scores
    exactly 100. *)
Theorem X2_best_buckets_score_100 (m : gmap string float) :
  Py.lt 0 (Py.get m "pe_ratio" 0) = true ->
  Py.le (Py.get m "pe_ratio" 0) 15 = true ->
  Py.lt 0 (Py.get m "price_to_book" 0) = true ->
  Py.le (Py.get m "price_to_book" 0) 1 = true ->
  Py.le 0 (Py.get m "debt_to_equity" 0) = true ->
  Py.le (Py.get m "debt_to_equity" 0) 0.3 = true ->
  Py.ge (Py.get m "current_ratio" 0) 2.0 = true ->
  Py.ge (Py.get m "roe" 0) 0.20 = true ->
  Py.ge (Py.get m "roa" 0) 0.10 = true ->
  Py.ge (Py.get m "profit_margins" 0) 0.20 = true ->
  Py.ge (Py.get m "revenue_growth" 0) 0.20 = true ->
  Py.ge (Py.get m "earnings_growth" 0) 0.20 = true ->
  Py.le 0.8 (Py.get m "beta" 0) = true ->
  Py.le (Py.get m "beta" 0) 1.2 = true ->
  fst (fundamental_score m) = 100%float.
Proof.
  intros Pe1 Pe2 Pb1 Pb2 D1 D2 Cr Roe Roa Mar Rg Eg B1 B2.
  assert (forall x c, Py.ge x c = true -> Py.lt 0 c = true -> Py.le x 0 = false) as pos.
  { intros x c Hx Hc. destruct (Py.le x 0) eqn:E; [|reflexivity].
    unfold Py.ge in Hx. change (Py.le c x = true) in Hx.
    pose proof (le_trans _ _ _ Hx E) as F.
    rewrite (le_not_lt _ _ F) in Hc. discriminate Hc. }
  assert (forall x c, Py.lt 0 x = true -> Py.le x c = true -> Py.le c 100 = true ->
                      Py.le x 0 || Py.gt x 100 = false) as rng.
  { intros x c H0 Hc H100. apply orb_false_iff. split.
    - apply lt_not_ge in H0. exact H0.
    - unfold Py.gt. change (Py.lt 100 x = false). apply le_not_lt.
      eapply le_trans; eassumption. }
  rewrite fundamental_score_total.
  replace (_score_pe_ratio (Py.get m "pe_ratio" 0)) with 100.
  2:{ unfold _score_pe_ratio. rewrite (rng _ 15%float Pe1 Pe2) by reflexivity.
      now rewrite Pe2. }
  replace (_score_price_to_book (Py.get m "price_to_book" 0)) with 100.
  2:{ unfold _score_price_to_book.
      assert (Py.le (Py.get m "price_to_book" 0) 0
              || Py.gt (Py.get m "price_to_book" 0) 10 = false) as E.
      { apply orb_false_iff. split.
        - apply lt_not_ge in Pb1. exact Pb1.
        - unfold Py.gt. change (Py.lt 10 (Py.get m "price_to_book" 0) = false).
          apply le_not_lt. eapply le_trans; [exact Pb2|reflexivity]. }
      rewrite E. now rewrite Pb2. }
  replace (_score_debt_to_equity (Py.get m "debt_to_equity" 0)) with 100.
  2:{ unfold _score_debt_to_equity. rewrite (le_not_lt _ _ D1). now rewrite D2. }
  replace (_score_current_ratio (Py.get m "current_ratio" 0)) with 100.
  2:{ unfold _score_current_ratio. rewrite (pos _ _ Cr) by reflexivity. now rewrite Cr. }
  replace (_score_roe (Py.get m "roe" 0)) with 100.
  2:{ unfold _score_roe. rewrite (pos _ _ Roe) by reflexivity. now rewrite Roe. }
  replace (_score_roa (Py.get m "roa" 0)) with 100.
  2:{ unfold _score_roa. rewrite (pos _ _ Roa) by reflexivity. now rewrite Roa. }
  replace (_score_profit_margin (Py.get m "profit_margins" 0)) with 100.
  2:{ unfold _score_profit_margin. rewrite (pos _ _ Mar) by reflexivity. now rewrite Mar. }
  replace (_score_growth (Py.get m "revenue_growth" 0)) with 100.
  2:{ unfold _score_growth. rewrite (pos _ _ Rg) by reflexivity. now rewrite Rg. }
  replace (_score_growth (Py.get m "earnings_growth" 0)) with 100.
  2:{ unfold _score_growth. rewrite (pos _ _ Eg) by reflexivity. now rewrite Eg. }
  replace (_score_beta (Py.get m "beta" 0)) with 100.
  2:{ unfold _score_beta.
      assert (Py.le (Py.get m "beta" 0) 0 = false) as E
        by (apply (pos _ 0.8%float); [exact B1|reflexivity]).
      rewrite E, B1, B2. reflexivity. }
  vm_compute. reflexivity.
Qed.

(** The snapshot of the repository's documentation example: every metric
    in its best bucket. *)
Lemma X2_witness :
  fst (fundamental_score
         (list_to_map
            [("pe_ratio", 10); ("price_to_book", 0.5); ("debt_to_equity", 0);
             ("current_ratio", 3); ("roe", 0.25); ("roa", 0.15);
             ("profit_margins", 0.25); ("revenue_growth", 0.25);
             ("earnings_growth", 0.25); ("beta", 1.0)]%float))
  = 100%float.
Proof.
  apply X2_best_buckets_score_100; vm_compute; reflexivity.
Defined.

(** X3: the fundamental total is monotone non-decreasing in each of
    [roa], [profit_margins], [revenue_growth], [earnings_growth] and
    [current_ratio], the other metrics being fixed. *)
Theorem X3_monotone_in_higher_is_better_metrics
    (m : gmap string float) (k : string) (r1 r2 : float) :
  In k ["roa"; "profit_margins"; "revenue_growth"; "earnings_growth";
        "current_ratio"] ->
  Py.le r1 r2 = true ->
  Py.le (fst (fundamental_score (<[k := r1]> m)))
        (fst (fundamental_score (<[k := r2]> m))) = true.
Proof.
  intros Hk H. rewrite !fundamental_score_total.
  simpl in Hk. destruct Hk as [<-|[<-|[<-|[<-|[<-|[]]]]]];
    rewrite !get_insert_eq, !get_insert_ne by discriminate.
  - apply total_mono_p; try fund_buckets.
    pose proof (_score_roa_monotone _ _ H). lia.
  - apply total_mono_p; try fund_buckets.
    pose proof (_score_profit_margin_monotone _ _ H). lia.
  - apply total_mono_g; try fund_buckets.
    pose proof (_score_growth_monotone _ _ H). lia.
  - apply total_mono_g; try fund_buckets.
    pose proof (_score_growth_monotone _ _ H). lia.
  - apply total_mono_h; try fund_buckets.
    pose proof (_score_current_ratio_monotone _ _ H). lia.
Qed.

Lemma X3_witness :
  Py.le (fst (fundamental_score (<["current_ratio" := 0.5%float]> zero_metrics)))
        (fst (fundamental_score (<["current_ratio" := 2.5%float]> zero_metrics)))
  = true.
Proof.
  apply X3_monotone_in_higher_is_better_metrics.
  - simpl. auto 10.
  - vm_compute. reflexivity.
Defined.

(** X4: on non-negative values the fundamental total is monotone
    non-increasing in [debt_to_equity]: more debt never raises the
    score. *)
Theorem X4_antitone_in_debt_to_equity (m : gmap string float) (d1 d2 : float) :
  Py.le 0 d1 = true -> Py.le d1 d2 = true ->
  Py.le (fst (fundamental_score (<["debt_to_equity" := d2]> m)))
        (fst (fundamental_score (<["debt_to_equity" := d1]> m))) = true.
Proof.
  intros H0 H. rewrite !fundamental_score_total.
  rewrite !get_insert_eq, !get_insert_ne by discriminate.
  apply total_mono_h; try fund_buckets.
  pose proof (_score_debt_to_equity_antitone _ _ H0 H). lia.
Qed.

Lemma X4_witness :
  Py.le (fst (fundamental_score (<["debt_to_equity" := 1.5%float]> zero_metrics)))
        (fst (fundamental_score (<["debt_to_equity" := 0.2%float]> zero_metrics)))
  = true.
Proof.
  apply X4_antitone_in_debt_to_equity; vm_compute; reflexivity.
Defined.

(** X5: the fundamental total is monotone non-increasing in [pe_ratio] on
    the range (0, 100] and in [price_to_book] on the range (0, 10]. *)
Theorem X5_antitone_in_valuation_ratios (m : gmap string float) (x1 x2 : float) :
  Py.lt 0 x1 = true -> Py.le x1 x2 = true ->
  (Py.le x2 100 = true ->
   Py.le (fst (fundamental_score (<["pe_ratio" := x2]> m)))
         (fst (fundamental_score (<["pe_ratio" := x1]> m))) = true) /\
  (Py.le x2 10 = true ->
   Py.le (fst (fundamental_score (<["price_to_book" := x2]> m)))
         (fst (fundamental_score (<["price_to_book" := x1]> m))) = true).
Proof.
  intros H0 H. split; intros Hhi; rewrite !fundamental_score_total;
    rewrite !get_insert_eq, !get_insert_ne by discriminate;
    apply total_mono_v; try fund_buckets.
  - pose proof (_score_pe_ratio_antitone _ _ H0 H Hhi). lia.
  - pose proof (_score_price_to_book_antitone _ _ H0 H Hhi). lia.
Qed.

Lemma X5_witness :
  Py.le (fst (fundamental_score (<["pe_ratio" := 8%float]> zero_metrics)))
        (fst (fundamental_score (<["pe_ratio" := 4%float]> zero_metrics))) = true /\
  Py.le (fst (fundamental_score (<["price_to_book" := 8%float]> zero_metrics)))
        (fst (fundamental_score (<["price_to_book" := 4%float]> zero_metrics))) = true.
Proof.
  destruct (X5_antitone_in_valuation_ratios zero_metrics 4 8) as [A B];
    try (vm_compute; reflexivity).
  split; [apply A | apply B]; vm_compute; reflexivity.
Defined.

(** X6: a metric that is missing from the snapshot is scored as the
    metric 0: removing a key and storing 0 under it give the same score
    and breakdown. *)
Theorem X6_missing_metric_scored_as_zero (m : gmap string float) (k : string) :
  fundamental_score (delete k m) = fundamental_score (<[k := 0%float]> m).
Proof.
  assert (forall k', Py.get (delete k m) k' 0 = Py.get (<[k := 0%float]> m) k' 0) as E.
  { intros k'. unfold Py.get. destruct (decide (k = k')) as [->|Hne].
    - now rewrite lookup_delete_eq, lookup_insert_eq.
    - now rewrite lookup_delete_ne, lookup_insert_ne. }
  unfold fundamental_score. rewrite !E. reflexivity.
Qed.

(** ** Further properties of the technical scorer and the indicators *)

Lemma trend_score_raises_always (data : DataFrame) :
  50 <= df_len data -> List.NoDup (df_index data) ->
  exists e, _calculate_trend_score data = Raise e.
Proof.
  intros Hlen Hnd.
  destruct (last_of data "Close") as [c|e1] eqn:Hc.
  2:{ exists e1. unfold _calculate_trend_score.
      destruct (df_len data <? 50) eqn:E; [apply Z.ltb_lt in E; lia|].
      rewrite Hc. reflexivity. }
  destruct (last_of data "SMA_20") as [a|e2] eqn:Ha.
  2:{ exists e2. unfold _calculate_trend_score.
      destruct (df_len data <? 50) eqn:E; [apply Z.ltb_lt in E; lia|].
      rewrite Hc, Ha. reflexivity. }
  destruct (last_of data "SMA_50") as [b|e3] eqn:Hb.
  2:{ exists e3. unfold _calculate_trend_score.
      destruct (df_len data <? 50) eqn:E; [apply Z.ltb_lt in E; lia|].
      rewrite Hc, Ha, Hb. reflexivity. }
  eexists. apply (trend_score_raises data c a b); assumption.
Qed.

Lemma technical_score_zero_if_short_or_distinct (pd : Numerics) (data : DataFrame) :
  df_len data < 50 \/ List.NoDup (df_index data) ->
  technical_score pd data = (0%float, ∅).
Proof.
  intros H. unfold technical_score.
  destruct (df_empty data || (df_len data <? 50)) eqn:E; [reflexivity|].
  apply orb_false_iff in E as [_ E]. apply Z.ltb_ge in E.
  destruct H as [H|H]; [lia|].
  destruct (trend_score_raises_always data E H) as [e He].
  rewrite He. reflexivity.
Qed.

(** X7: on every frame of fewer than 50 bars, and on every frame whose
    row labels are pairwise distinct, [technical_score] returns
    [(0, {})]: with distinct labels the trend category raises and the
    handler keeps the initial score and the empty breakdown. *)
Theorem X7_technical_score_is_zero (pd : Numerics) (data : DataFrame) :
  df_len data < 50 \/ List.NoDup (df_index data) ->
  technical_score pd data = (0%float, ∅).
Proof.
  apply technical_score_zero_if_short_or_distinct.
Qed.

Lemma X7_witness :
  technical_score numerics_left_to_right bars_50 = (0%float, ∅) /\
  technical_score numerics_left_to_right
    (calculate_technical_indicators ta_echo bars_50) = (0%float, ∅).
Proof.
  split; apply X7_technical_score_is_zero; right; vm_compute;
    repeat constructor; simpl; intuition discriminate.
Defined.

Ltac in_list := repeat (first [left; reflexivity | right]).

Lemma gt_values_length a b : (length (gt_values a b) <= length a)%nat.
Proof.
  revert b. induction a as [|x a IH]; intros [|y b]; simpl; try lia.
  specialize (IH b). lia.
Qed.

Lemma slice_from_end_length {A} (a b : nat) (l : list A) :
  (length (slice_from_end a b l) <= a - b)%nat.
Proof.
  unfold slice_from_end. rewrite length_firstn. lia.
Qed.

Lemma count_true_bound (l : list bool) : 0 <= count_true l <= Z.of_nat (length l).
Proof.
  unfold count_true. pose proof (List.filter_length_le (fun b => b) l). lia.
Qed.

Lemma trend_in_values (data : DataFrame) x :
  _calculate_trend_score data = Ok x -> In x trend_values.
Proof.
  unfold _calculate_trend_score.
  destruct (df_len data <? 50); [intros [= <-]; left; reflexivity|].
  destruct (last_of data "Close") as [c|]; [|discriminate].
  destruct (last_of data "SMA_20") as [a|]; [|discriminate].
  destruct (last_of data "SMA_50") as [b|]; [|discriminate].
  destruct (getitem data "Close") as [close|]; [|discriminate].
  unfold series_gt. destruct (bool_decide _); [|discriminate].
  set (cmp := gt_values _ _).
  assert (0 <= count_true cmp <= 5) as Hc.
  { pose proof (count_true_bound cmp) as B.
    pose proof (gt_values_length
                  (s_values (iloc_slice 5 0 close)) (s_values (iloc_slice 10 5 close))) as L.
    fold cmp in L. simpl in L.
    pose proof (slice_from_end_length 5 0 (s_values close)) as S5. lia. }
  intros [= <-].
  assert (count_true cmp = 0 \/ count_true cmp = 1 \/ count_true cmp = 2 \/
          count_true cmp = 3 \/ count_true cmp = 4 \/ count_true cmp = 5) as D by lia.
  destruct (Py.gt c a), (Py.gt c b), (Py.gt a b);
    destruct D as [->|[->|[->|[->|[->| ->]]]]]; vm_compute; in_list.
Qed.

Lemma momentum_in_values (data : DataFrame) z :
  _calculate_momentum_score data = Ok z -> In z momentum_values.
Proof.
  unfold _calculate_momentum_score.
  destruct (df_len data <? 14); [intros [= <-]; left; reflexivity|].
  destruct (last_of data "RSI"); [|discriminate].
  destruct (last_of data "MACD"); [|discriminate].
  destruct (last_of data "MACD_Signal"); [|discriminate].
  intros [= <-]. split_ifs; vm_compute; in_list.
Qed.

Lemma volatility_in_values (pd : Numerics) (data : DataFrame) z :
  _calculate_volatility_score pd data = Ok z -> In z volatility_values.
Proof.
  unfold _calculate_volatility_score.
  destruct (df_len data <? 14); [intros [= <-]; left; reflexivity|].
  destruct (last_of data "BB_Position"); [|discriminate].
  destruct (last_of data "ATR"); [|discriminate].
  destruct (getitem data "ATR"); [|discriminate].
  destruct (iloc_last _); [|discriminate].
  intros [= <-]. split_ifs; vm_compute; in_list.
Qed.

Lemma volume_in_values (pd : Numerics) (data : DataFrame) z :
  _calculate_volume_score pd data = Ok z -> In z volume_values.
Proof.
  unfold _calculate_volume_score.
  destruct (df_len data <? 20); [intros [= <-]; left; reflexivity|].
  destruct (last_of data "Volume"); [|discriminate].
  destruct (getitem data "Volume"); [|discriminate].
  destruct (iloc_last _); [|discriminate].
  destruct (getitem data "OBV"); [|discriminate].
  intros [= <-]. split_ifs; vm_compute; in_list.
Qed.

Lemma support_resistance_in_values (pd : Numerics) (data : DataFrame) z :
  _calculate_support_resistance_score pd data = Ok z ->
  In z support_resistance_values.
Proof.
  unfold _calculate_support_resistance_score.
  destruct (df_len data <? 20); [intros [= <-]; left; reflexivity|].
  destruct (last_of data "Close"); [|discriminate].
  destruct (getitem data "Low"); [|discriminate].
  destruct (getitem data "High"); [|discriminate].
  intros [= <-]. split_ifs; vm_compute; in_list.
Qed.

Lemma technical_totals_in_range_ok :
  ltac:(let t := eval unfold technical_totals_in_range in
                   (technical_totals_in_range = true) in exact t).
Proof. vm_cast_no_check (eq_refl true). Qed.

Lemma technical_weights_values :
  Py.get technical_weights "trend" 0 = 0.30%float /\
  Py.get technical_weights "momentum" 0 = 0.25%float /\
  Py.get technical_weights "volatility" 0 = 0.20%float /\
  Py.get technical_weights "volume" 0 = 0.15%float /\
  Py.get technical_weights "support_resistance" 0 = 0.10%float.
Proof. repeat split; vm_compute; reflexivity. Qed.

(** The score left by the [try] block of [technical_score] is in range. *)
Lemma technical_state_in_range (pd : Numerics) (data : DataFrame) :
  technical_in_range
    (fst (try_except
       (category "trend" (_calculate_trend_score data) ;;;
        category "momentum" (as_float (_calculate_momentum_score data)) ;;;
        category "volatility" (as_float (_calculate_volatility_score pd data)) ;;;
        category "volume" (as_float (_calculate_volume_score pd data)) ;;;
        category "support_resistance"
          (as_float (_calculate_support_resistance_score pd data)))
       (0%float, ∅))) = true.
Proof.
  pose proof technical_totals_in_range_ok as C.
  apply andb_true_iff in C as [C0 C1].
  destruct technical_weights_values as (W1 & W2 & W3 & W4 & W5).
  unfold try_except, bind, category, lift, modify, as_float.
  rewrite W1, W2, W3, W4, W5.
  destruct (_calculate_trend_score data) as [x1|] eqn:E1; simpl; [|exact C0].
  rewrite List.forallb_forall in C1.
  specialize (C1 x1 (trend_in_values _ _ E1)). cbv zeta in C1.
  apply andb_true_iff in C1 as [R1 C2].
  destruct (_calculate_momentum_score data) as [x2|] eqn:E2; simpl; [|exact R1].
  rewrite List.forallb_forall in C2.
  specialize (C2 x2 (momentum_in_values _ _ E2)). cbv zeta in C2.
  apply andb_true_iff in C2 as [R2 C3].
  destruct (_calculate_volatility_score pd data) as [x3|] eqn:E3; simpl; [|exact R2].
  rewrite List.forallb_forall in C3.
  specialize (C3 x3 (volatility_in_values _ _ _ E3)). cbv zeta in C3.
  apply andb_true_iff in C3 as [R3 C4].
  destruct (_calculate_volume_score pd data) as [x4|] eqn:E4; simpl; [|exact R3].
  rewrite List.forallb_forall in C4.
  specialize (C4 x4 (volume_in_values _ _ _ E4)). cbv zeta in C4.
  apply andb_true_iff in C4 as [R4 C5].
  destruct (_calculate_support_resistance_score pd data) as [x5|] eqn:E5; simpl;
    [|exact R4].
  rewrite List.forallb_forall in C5.
  exact (C5 x5 (support_resistance_in_values _ _ _ E5)).
Qed.

(** X8: for every frame, whatever its labels and columns and whatever the
    numerical reductions return, the technical total lies between 0 and
    88.75: the momentum category can reach 75 raw points at most and the
    support/resistance category 50. *)
Theorem X8_technical_score_range (pd : Numerics) (data : DataFrame) :
  Py.le 0 (fst (technical_score pd data)) = true /\
  Py.le (fst (technical_score pd data)) 88.75 = true.
Proof.
  unfold technical_score.
  destruct (df_empty data || (df_len data <? 50)).
  - split; vm_compute; reflexivity.
  - pose proof (technical_state_in_range pd data) as R.
    destruct (try_except _ _) as [score scores]. simpl in *.
    unfold technical_in_range in R. apply andb_true_iff in R. exact R.
Qed.

(** ** The signal generator on incomplete frames *)

(** X9: when one of the five columns read by [generate_signals]
    ([Close], [RSI], [MACD], [MACD_Signal], [BB_Position]) is missing, no
    signal is returned at all, whatever the other indicators say. *)
Theorem X9_missing_column_no_signal (data : DataFrame) (col : string) :
  In col ["Close"; "RSI"; "MACD"; "MACD_Signal"; "BB_Position"] ->
  df_columns data !! col = None ->
  generate_signals data = [].
Proof.
  intros Hc Hm.
  assert (last_of data col = Raise (KeyError col)) as E
    by (unfold last_of, getitem; rewrite Hm; reflexivity).
  unfold generate_signals.
  destruct (df_empty data || (df_len data <? 50)); [reflexivity|].
  unfold try_except, bind, lift.
  simpl in Hc. destruct Hc as [<-|[<-|[<-|[<-|[<-|[]]]]]];
    repeat match goal with
    | |- context [ last_of data ?c ] =>
        first [ rewrite E | destruct (last_of data c) ]
    end; reflexivity.
Qed.

(** Fifty bars on which the RSI, MACD and Bollinger conditions hold but
    the [Close] column is missing. *)
Lemma X9_witness :
  generate_signals
    (mkDataFrame (df_index frame_three_signals)
       (delete "Close" (df_columns frame_three_signals))) = [].
Proof.
  apply (X9_missing_column_no_signal _ "Close").
  - simpl. auto.
  - vm_compute. reflexivity.
Defined.

(** ** The indicator frame *)

Lemma bind_keeps {S A B} (P : S -> Prop) (m : M S A) (k : A -> M S B) (s : S) :
  P s ->
  (forall s', P s' -> P (snd (m s'))) ->
  (forall a s', P s' -> P (snd (k a s'))) ->
  P (snd (bind m k s)).
Proof.
  intros Hs Hm Hk. unfold bind. specialize (Hm s Hs).
  destruct (m s) as [[a|e] s']; simpl in *; auto.
Qed.

Lemma assign_keeps (P : DataFrame -> Prop) col rhs :
  (forall df v, P df -> P (setitem df col v)) ->
  forall df, P df -> P (snd (assign col rhs df)).
Proof.
  intros Hset df Hdf. unfold assign. destruct (rhs df); simpl; auto.
Qed.

Ltac frame_keeps P Hset :=
  lazymatch goal with
  | |- _ (snd (bind _ _ _)) =>
      apply (bind_keeps P);
      [ assumption
      | intros ? ?; apply assign_keeps; [apply Hset | assumption]
      | intros _ ? ?; frame_keeps P Hset ]
  | |- _ (snd (assign _ _ _)) => apply assign_keeps; [apply Hset | assumption]
  end.

Lemma indicator_frame_index (ta : TA) (data : DataFrame) :
  df_index (calculate_technical_indicators ta data) = df_index data.
Proof.
  set (P := fun df : DataFrame => df_index df = df_index data).
  assert (forall col df v, P df -> P (setitem df col v)) as Hset
    by (intros col df v H; exact H).
  unfold calculate_technical_indicators.
  destruct (df_empty data); [reflexivity|].
  assert (P data) as Hd by reflexivity.
  unfold try_except.
  match goal with |- df_index ?x = _ => change (P x) end.
  frame_keeps P Hset.
Qed.

(** X10: [calculate_technical_indicators] keeps the row labels and the
    number of rows of its input and drops no column; when the input has no
    [Close] column it is returned unchanged, the first indicator having
    raised. *)
Theorem X10_indicator_frame_keeps_input (ta : TA) (data : DataFrame) :
  df_index (calculate_technical_indicators ta data) = df_index data /\
  df_len (calculate_technical_indicators ta data) = df_len data /\
  (forall col, is_Some (df_columns data !! col) ->
               is_Some (df_columns (calculate_technical_indicators ta data) !! col)) /\
  (df_columns data !! "Close" = None ->
   calculate_technical_indicators ta data = data).
Proof.
  set (P := fun df : DataFrame =>
              df_index df = df_index data /\
              forall col, is_Some (df_columns data !! col) ->
                          is_Some (df_columns df !! col)).
  assert (forall col df v, P df -> P (setitem df col v)) as Hset.
  { intros col df v [Hi Hc]. split; [exact Hi|].
    intros c Hs. simpl. destruct (decide (col = c)) as [->|Hne].
    - rewrite lookup_insert_eq. eauto.
    - rewrite lookup_insert_ne by exact Hne. auto. }
  assert (P (calculate_technical_indicators ta data)) as [Hi Hc].
  { unfold calculate_technical_indicators.
    destruct (df_empty data); [split; auto|].
    assert (P data) as Hd by (split; auto).
    unfold try_except. frame_keeps P Hset. }
  split; [exact Hi|]. split; [unfold df_len; now rewrite Hi|]. split; [exact Hc|].
  intros Hm. unfold calculate_technical_indicators.
  destruct (df_empty data); [reflexivity|].
  unfold try_except, bind. unfold assign at 1. unfold with1, column, getitem.
  rewrite Hm. reflexivity.
Qed.

(** ** Further properties of the analyzer, the screener and their callers *)

Lemma overall_without_technical_ok :
  ltac:(let t := eval unfold overall_without_technical in
                   (overall_without_technical = true) in exact t).
Proof. vm_cast_no_check (eq_refl true). Qed.

Lemma overall_without_technical_facts (m : gmap string float) :
  let overall := (fst (fundamental_score m) * 0.6 + 0 * 0.4)%float in
  Py.gt overall 0 = true /\ Py.le overall 60 = true /\ Py.lt overall 70 = true.
Proof.
  rewrite fundamental_score_total.
  set (v := _score_pe_ratio _ + _). set (h := _score_debt_to_equity _ + _).
  set (p := _score_roe _ + _ + _). set (g := _score_growth _ + _).
  assert (bucket 10 v) as Hv by (subst v; fund_buckets).
  assert (bucket 10 h) as Hh by (subst h; fund_buckets).
  assert (bucket 15 p) as Hp by (subst p; fund_buckets).
  assert (bucket 10 g) as Hg by (subst g; fund_buckets).
  pose proof overall_without_technical_ok as H.
  rewrite List.forallb_forall in H. specialize (H v (in_steps _ _ Hv)).
  rewrite List.forallb_forall in H. specialize (H h (in_steps _ _ Hh)).
  rewrite List.forallb_forall in H. specialize (H p (in_steps _ _ Hp)).
  rewrite List.forallb_forall in H. specialize (H g (in_steps _ _ Hg)).
  rewrite List.forallb_forall in H. specialize (H _ (beta_in_values (Py.get m "beta" 0))).
  cbv zeta in H |- *.
  apply andb_true_iff in H as [H H3]. apply andb_true_iff in H as [H1 H2]. auto.
Qed.

Lemma recommend_below_70 (s : float) :
  Py.lt s 70 = true -> recommend s = HOLD \/ recommend s = SELL \/ recommend s = STRONG_SELL.
Proof.
  intros H. unfold recommend.
  assert (Py.ge s 70 = false) as E70 by (apply lt_not_ge, H).
  assert (Py.ge s 80 = false) as E80.
  { apply lt_not_ge. eapply lt_le_trans; [exact H|]. reflexivity. }
  rewrite E80, E70. destruct (Py.ge s 50); auto. destruct (Py.ge s 30); auto.
Qed.

Section AnalyzerFacts.
Context (ta : TA) (pd : Numerics) (yf : YFinance).

Lemma analyze_stock_symbol (sym : string) :
  symbol (analyze_stock ta pd yf sym) = sym.
Proof.
  unfold analyze_stock. destruct (negb _); [|reflexivity].
  destruct (fundamental_score _), (technical_score pd _). reflexivity.
Qed.

Lemma analyze_stock_fundamental_data (sym : string) :
  fundamental_data (analyze_stock ta pd yf sym) = get_fundamental_data yf sym.
Proof.
  unfold analyze_stock. destruct (negb _); [|reflexivity].
  destruct (fundamental_score _), (technical_score pd _). reflexivity.
Qed.

Lemma analyze_stock_distinct_labels (sym : string) :
  df_empty (get_stock_data yf sym "1y") = false ->
  List.NoDup (df_index (get_stock_data yf sym "1y")) ->
  a_technical_score (analyze_stock ta pd yf sym) = 0%float /\
  technical_breakdown (analyze_stock ta pd yf sym) = Some ∅ /\
  overall_score (analyze_stock ta pd yf sym)
  = (fst (fundamental_score (get_fundamental_data yf sym)) * 0.6 + 0 * 0.4)%float.
Proof.
  intros He Hnd. unfold analyze_stock. rewrite He. simpl negb. cbv iota.
  rewrite (technical_score_zero_if_short_or_distinct pd
             (calculate_technical_indicators ta (get_stock_data yf sym "1y")))
    by (right; rewrite indicator_frame_index; exact Hnd).
  destruct (fundamental_score (get_fundamental_data yf sym)) as [fs fb].
  simpl. auto.
Qed.

End AnalyzerFacts.

(** X11: when the price history of a symbol is non-empty and its row
    labels are pairwise distinct, the analysis has technical score 0 and an
    empty technical breakdown, its overall score is 0.6 times the
    fundamental score, hence positive and at most 60, and its
    recommendation is never [BUY] or [STRONG_BUY]. *)
Theorem X11_analysis_without_technical_score
    (ta : TA) (pd : Numerics) (yf : YFinance) (sym : string) :
  df_empty (get_stock_data yf sym "1y") = false ->
  List.NoDup (df_index (get_stock_data yf sym "1y")) ->
  let a := analyze_stock ta pd yf sym in
  a_technical_score a = 0%float /\
  technical_breakdown a = Some ∅ /\
  overall_score a = (a_fundamental_score a * 0.6 + 0 * 0.4)%float /\
  can_report a = true /\
  Py.le (overall_score a) 60 = true /\
  (recommendation a = HOLD \/ recommendation a = SELL \/ recommendation a = STRONG_SELL).
Proof.
  intros He Hnd a. subst a.
  destruct (analyze_stock_distinct_labels ta pd yf sym He Hnd) as (T & B & O).
  destruct (overall_without_technical_facts (get_fundamental_data yf sym))
    as (P & L60 & L70).
  assert (a_fundamental_score (analyze_stock ta pd yf sym)
          = fst (fundamental_score (get_fundamental_data yf sym))) as F.
  { unfold analyze_stock. rewrite He. simpl negb. cbv iota.
    destruct (fundamental_score _), (technical_score pd _). reflexivity. }
  split; [exact T|]. split; [exact B|]. split; [rewrite F; exact O|].
  unfold can_report.
  rewrite (analyze_stock_recommendation ta pd yf sym He), O.
  split; [exact P|]. split; [exact L60|].
  apply recommend_below_70, L70.
Qed.

Lemma X11_witness :
  overall_score (analyze_stock ta_echo numerics_left_to_right yf_demo "WEAK")
  = 10.5%float /\
  Py.le (overall_score (analyze_stock ta_echo numerics_left_to_right yf_demo "WEAK"))
        60 = true.
Proof.
  assert (df_empty (get_stock_data yf_demo "WEAK" "1y") = false) as He
    by (vm_compute; reflexivity).
  assert (List.NoDup (df_index (get_stock_data yf_demo "WEAK" "1y"))) as Hnd
    by (vm_compute; repeat constructor; simpl; intuition discriminate).
  split; [vm_compute; reflexivity|].
  exact (proj1 (proj2 (proj2 (proj2 (proj2
    (X11_analysis_without_technical_score
       ta_echo numerics_left_to_right yf_demo "WEAK" He Hnd)))))).
Defined.

(** X12: when the fundamentals of a symbol cannot be fetched while its
    price history is non-empty with distinct row labels, the fundamental
    score is 17.5 (the defaults score 100 for debt-to-equity and 50 for
    beta), the overall score is 10.5 and the recommendation is
    [STRONG_SELL]. *)
Theorem X12_failed_fundamentals_strong_sell
    (ta : TA) (pd : Numerics) (yf : YFinance) (sym : string) (e : exn) :
  info yf sym = Raise e ->
  df_empty (get_stock_data yf sym "1y") = false ->
  List.NoDup (df_index (get_stock_data yf sym "1y")) ->
  let a := analyze_stock ta pd yf sym in
  a_fundamental_score a = 17.5%float /\
  overall_score a = 10.5%float /\
  recommendation a = STRONG_SELL.
Proof.
  intros Hi He Hnd a. subst a.
  destruct (analyze_stock_distinct_labels ta pd yf sym He Hnd) as (_ & _ & O).
  assert (get_fundamental_data yf sym = ∅) as G
    by (unfold get_fundamental_data; rewrite Hi; reflexivity).
  assert (fst (fundamental_score (∅ : gmap string float)) = 17.5%float) as F
    by (vm_compute; reflexivity).
  assert (overall_score (analyze_stock ta pd yf sym) = 10.5%float) as O'.
  { rewrite O, G, F. vm_compute. reflexivity. }
  split; [|split; [exact O'|]].
  - unfold analyze_stock. rewrite He. simpl negb. cbv iota. rewrite G.
    destruct (fundamental_score ∅) as [fs fb] eqn:Ef, (technical_score pd _).
    simpl in *. exact F.
  - rewrite (analyze_stock_recommendation ta pd yf sym He), O'.
    vm_compute. reflexivity.
Qed.

Lemma X12_witness :
  recommendation (analyze_stock ta_echo numerics_left_to_right yf_no_info "ANY")
  = STRONG_SELL.
Proof.
  refine (proj2 (proj2 (X12_failed_fundamentals_strong_sell
            ta_echo numerics_left_to_right yf_no_info "ANY"
            (LibraryError "no info") _ _ _))).
  - reflexivity.
  - vm_compute. reflexivity.
  - vm_compute. repeat constructor; simpl; intuition discriminate.
Defined.

(** X13: the screener returns exactly the analyses that pass its filter,
    each as often as its symbol occurs in the input, so never more than
    the input has symbols. *)
Theorem X13_screen_is_permutation_of_passing
    (ta : TA) (pd : Numerics) (yf : YFinance) (cfg : Config) (symbols : list string) :
  Permutation (screen_stocks ta pd yf cfg symbols)
    (List.filter (passes cfg) (map (analyze_stock ta pd yf) symbols)) /\
  (length (screen_stocks ta pd yf cfg symbols) <= length symbols)%nat.
Proof.
  assert (Permutation (screen_stocks ta pd yf cfg symbols)
            (List.filter (passes cfg) (map (analyze_stock ta pd yf) symbols))) as P.
  { unfold screen_stocks. rewrite sort_reverse_perm, screened_filter. reflexivity. }
  split; [exact P|].
  rewrite (Permutation_length P).
  pose proof (List.filter_length_le (passes cfg) (map (analyze_stock ta pd yf) symbols)).
  rewrite length_map in *. lia.
Qed.

(** X14: every analysis the screener returns is the analysis of one of
    the input symbols, that symbol has a non-empty price history, and,
    when the minimum market capitalisation is positive, its fundamentals
    were fetched without error. *)
Theorem X14_screened_symbols_have_data
    (ta : TA) (pd : Numerics) (yf : YFinance) (cfg : Config)
    (symbols : list string) (a : Analysis) :
  In a (screen_stocks ta pd yf cfg symbols) ->
  In (symbol a) symbols /\
  a = analyze_stock ta pd yf (symbol a) /\
  df_empty (get_stock_data yf (symbol a) "1y") = false /\
  (Py.lt 0 (min_market_cap cfg) = true -> forall e, info yf (symbol a) <> Raise e).
Proof.
  intros H.
  assert (In a (List.filter (passes cfg) (map (analyze_stock ta pd yf) symbols))) as H'.
  { eapply Permutation_in; [|exact H].
    unfold screen_stocks. rewrite sort_reverse_perm, screened_filter. reflexivity. }
  apply List.filter_In in H' as [Hin Hp].
  apply List.in_map_iff in Hin as (s & <- & Hs).
  rewrite analyze_stock_symbol.
  split; [exact Hs|]. split; [reflexivity|].
  unfold passes in Hp.
  apply andb_true_iff in Hp as [Hp P3]. apply andb_true_iff in Hp as [P1 _].
  split.
  - destruct (df_empty (get_stock_data yf s "1y")) eqn:E; [|reflexivity].
    rewrite (analyze_stock_empty ta pd yf s E) in P3. simpl in P3.
    vm_compute in P3. discriminate P3.
  - intros Hpos e He.
    rewrite analyze_stock_fundamental_data in P1.
    unfold get_fundamental_data in P1. rewrite He in P1.
    unfold Py.get in P1. rewrite lookup_empty in P1.
    unfold Py.ge in P1. change (Py.le (min_market_cap cfg) 0 = true) in P1.
    rewrite (le_not_lt _ _ P1) in Hpos. discriminate Hpos.
Qed.

Lemma X14_witness :
  df_empty (get_stock_data yf_demo
              (symbol (analyze_stock ta_echo numerics_left_to_right yf_demo "GOOD"))
              "1y") = false.
Proof.
  assert (screen_stocks ta_echo numerics_left_to_right yf_demo default_config
            ["WEAK"; "GOOD"; "NONE"]
          = [analyze_stock ta_echo numerics_left_to_right yf_demo "GOOD"]) as E
    by (vm_compute; reflexivity).
  assert (In (analyze_stock ta_echo numerics_left_to_right yf_demo "GOOD")
             (screen_stocks ta_echo numerics_left_to_right yf_demo default_config
                ["WEAK"; "GOOD"; "NONE"])) as H
    by (rewrite E; left; reflexivity).
  exact (proj1 (proj2 (proj2
    (X14_screened_symbols_have_data ta_echo numerics_left_to_right yf_demo
       default_config _ _ H)))).
Defined.

Lemma slider_up_to_60_ok :
  ltac:(let t := eval unfold slider_up_to_60 in (slider_up_to_60 = true) in exact t).
Proof. vm_cast_no_check (eq_refl true). Qed.

Lemma StronglySorted_filter {A} (R : A -> A -> Prop) (f : A -> bool) l :
  StronglySorted R l -> StronglySorted R (List.filter f l).
Proof.
  induction 1 as [|a l Hs IH Ha]; simpl; [constructor|].
  destruct (f a); [|exact IH].
  constructor; [exact IH|].
  apply List.Forall_forall. intros x Hx. apply List.filter_In in Hx as [Hx _].
  rewrite List.Forall_forall in Ha. auto.
Qed.

(** X15: in the dashboard, a slider value of at most 60 filters nothing:
    the displayed list is the screener's output for the chosen market
    capitalisation; for every slider value the displayed list is
    descending by overall score and every analysis in it reaches both the
    slider value and the screener's own threshold of 60. *)
Theorem X15_dashboard_min_score_filter
    (ta : TA) (pd : Numerics) (yf : YFinance) (cfg : Config)
    (min_score billions : Z) (stock_list : list string) :
  let cfg' :=
    mkConfig (Py.Z2f billions * 1e9)%float (min_volume cfg) (max_pe_ratio cfg)
      (min_pe_ratio cfg) (max_debt_to_equity cfg) (min_current_ratio cfg)
      (min_roe cfg) in
  let shown := dashboard_screen ta pd yf cfg min_score billions stock_list in
  (0 <= min_score <= 60 -> shown = screen_stocks ta pd yf cfg' stock_list) /\
  StronglySorted (fun a b => Py.ge (overall_score a) (overall_score b) = true) shown /\
  Forall (fun a => Py.ge (overall_score a) (Py.Z2f min_score) = true
                   /\ Py.ge (overall_score a) 60 = true) shown.
Proof.
  intros cfg' shown. subst shown. unfold dashboard_screen. fold cfg'.
  set (out := screen_stocks ta pd yf cfg' stock_list).
  assert (Forall (fun a => Py.ge (overall_score a) 60 = true) out) as H60.
  { eapply List.Forall_impl; [|apply (screen_stocks_pass ta pd yf cfg')].
    intros a Ha. unfold passes in Ha. apply andb_true_iff in Ha as [_ Ha]. exact Ha. }
  assert (StronglySorted (fun a b => Py.ge (overall_score a) (overall_score b) = true)
            out) as Hs.
  { unfold out, screen_stocks. apply (sort_reverse_sorted overall_score 60%float).
    eapply List.Forall_impl; [|apply (screened_pass ta pd yf cfg')].
    intros a Ha. unfold passes in Ha. apply andb_true_iff in Ha as [_ Ha]. exact Ha. }
  split; [|split].
  - intros Hms. unfold filter_min_score.
    assert (Py.le (Py.Z2f min_score) 60 = true) as Hle.
    { pose proof slider_up_to_60_ok as C. rewrite List.forallb_forall in C.
      apply C. apply List.in_map_iff. exists (Z.to_nat min_score).
      split; [lia|]. apply List.in_seq. lia. }
    rewrite List.Forall_forall in H60.
    clear Hs. induction out as [|a out IH]; simpl; [reflexivity|].
    assert (Py.ge (overall_score a) (Py.Z2f min_score) = true) as Ha.
    { unfold Py.ge. change (Py.le (Py.Z2f min_score) (overall_score a) = true).
      eapply le_trans; [exact Hle|]. apply (H60 a). left. reflexivity. }
    rewrite Ha. f_equal. apply IH. intros x Hx. apply H60. right. exact Hx.
  - unfold filter_min_score. apply StronglySorted_filter, Hs.
  - apply List.Forall_forall. intros a Ha. unfold filter_min_score in Ha.
    apply List.filter_In in Ha as [Hin Hge]. split; [exact Hge|].
    rewrite List.Forall_forall in H60. auto.
Qed.

Lemma X15_witness :
  (0 <= 40 <= 60) /\
  dashboard_screen ta_echo numerics_left_to_right yf_demo default_config 40 1
    ["WEAK"; "GOOD"; "NONE"]
  = screen_stocks ta_echo numerics_left_to_right yf_demo
      (mkConfig (Py.Z2f 1 * 1e9)%float (min_volume default_config)
         (max_pe_ratio default_config) (min_pe_ratio default_config)
         (max_debt_to_equity default_config) (min_current_ratio default_config)
         (min_roe default_config))
      ["WEAK"; "GOOD"; "NONE"].
Proof.
  assert (0 <= 40 <= 60) as H by lia.
  split; [exact H|].
  exact (proj1 (X15_dashboard_min_score_filter ta_echo numerics_left_to_right yf_demo
                  default_config 40 1 ["WEAK"; "GOOD"; "NONE"]) H).
Defined.

(** X16: a higher overall score never gives a worse recommendation. *)
Theorem X16_recommend_monotone (s1 s2 : float) :
  Py.le s1 s2 = true ->
  recommendation_rank (recommend s1) <= recommendation_rank (recommend s2).
Proof.
  intros H. unfold recommend. split_ifs; simpl; try lia; exfalso; float_absurd.
Qed.

Lemma X16_witness :
  recommendation_rank (recommend 49.999) <= recommendation_rank (recommend 70.0).
Proof.
  apply X16_recommend_monotone. vm_compute. reflexivity.
Defined.

(** ** Further properties of the portfolio recommender and the sector
       aggregator *)

Lemma weights_well_formed_ok :
  forallb weights_well_formed (seq 1 11) = true.
Proof. vm_compute. reflexivity. Qed.

Lemma strictly_descending_sorted (l : list float) :
  strictly_descending l = true ->
  Sorted (fun a b => Py.gt a b = true) l.
Proof.
  induction l as [|x [|y l] IH]; intros H.
  - constructor.
  - repeat constructor.
  - simpl in H. apply andb_true_iff in H as [Hxy H].
    constructor; [apply IH, H|]. constructor. exact Hxy.
Qed.



(** X18: for 1 to 11 sectors with distinct names, the sum of the raw
    weights is positive (the normalisation never divides by zero), and the
    allocation weights are positive, at most 1 and strictly descending in
    rank order: a sector ranked higher always gets a larger weight. *)
Theorem X18_allocation_weights_descending
    (pd : Numerics) (top : list Analysis) (sa : list (string * SectorProfile)) :
  List.NoDup (map fst sa) ->
  (1 <= length sa <= 11)%nat ->
  let weights :=
    map snd (sector_allocation (generate_portfolio_recommendations pd top sa)) in
  Py.gt (fold_left PrimFloat.add (raw_weights 0 (length sa)) 0%float) 0 = true /\
  Forall (fun w => Py.gt w 0 = true /\ Py.le w 1 = true) weights /\
  Sorted (fun a b => Py.gt a b = true) weights.
Proof.
  intros H Hn weights. subst weights.
  destruct (sector_allocation_spec pd top sa H) as [_ ->].
  pose proof weights_well_formed_ok as C.
  rewrite List.forallb_forall in C.
  assert (In (length sa) (seq 1 11)) as Hin by (apply List.in_seq; lia).
  specialize (C _ Hin). unfold weights_well_formed in C.
  apply andb_true_iff in C as [C C3]. apply andb_true_iff in C as [C1 C2].
  split; [exact C1|]. split.
  - apply List.Forall_forall. intros w Hw.
    rewrite List.forallb_forall in C2. specialize (C2 w Hw).
    apply andb_true_iff in C2. exact C2.
  - apply strictly_descending_sorted, C3.
Qed.

Lemma X18_witness :
  Sorted (fun a b => Py.gt a b = true)
    (map snd (sector_allocation
                (generate_portfolio_recommendations
                   numerics_left_to_right [] sectors_demo))).
Proof.
  assert (List.NoDup (map fst sectors_demo)) as H
    by (repeat constructor; simpl; intuition discriminate).
  assert (1 <= length sectors_demo <= 11)%nat as Hn by (simpl; lia).
  exact (proj2 (proj2 (X18_allocation_weights_descending
                         numerics_left_to_right [] sectors_demo H Hn))).
Defined.

Section SectorFacts.
Context (ta : TA) (pd : Numerics) (yf : YFinance) (series_std : list float -> float).

Lemma sector_entry_cases (etf sector : string) (d : list (string * SectorProfile)) :
  try_except (sector_entry ta pd yf series_std etf sector) d = d \/
  exists p,
    try_except (sector_entry ta pd yf series_std etf sector) d = dict_set d sector p /\
    df_empty (get_stock_data yf etf "6mo") = false /\
    momentum p = (return_6mo p + sp_technical_score p * 0.5)%float.
Proof.
  unfold sector_entry, try_except.
  destruct (df_empty (get_stock_data yf etf "6mo")) eqn:E; simpl; [left; reflexivity|].
  unfold bind, lift, modify.
  destruct (getitem _ "Close") as [close|]; simpl; [|left; reflexivity].
  destruct (iloc_last close); simpl; [|left; reflexivity].
  destruct (iloc_first close); simpl; [|left; reflexivity].
  destruct (technical_score pd _) as [ts tb]. simpl.
  right. eexists. split; [reflexivity|]. split; reflexivity.
Qed.

Lemma sector_loop_keys (items : list (string * string))
    (d : list (string * SectorProfile)) :
  List.NoDup (map fst d ++ map snd items) ->
  Forall (fun e => momentum (snd e)
                   = (return_6mo (snd e) + sp_technical_score (snd e) * 0.5)%float) d ->
  exists ks,
    sublist ks (map snd items) /\
    map fst (sector_loop ta pd yf series_std items d) = map fst d ++ ks /\
    Forall (fun e => momentum (snd e)
                     = (return_6mo (snd e) + sp_technical_score (snd e) * 0.5)%float)
      (sector_loop ta pd yf series_std items d).
Proof.
  revert d. induction items as [|[etf sector] items IH]; intros d Hnd Hm; simpl.
  - exists []. split; [constructor|]. split; [now rewrite app_nil_r|exact Hm].
  - simpl in Hnd.
    destruct (sector_entry_cases etf sector d) as [E|(p & E & _ & Hp)]; rewrite E.
    + destruct (IH d) as (ks & Hs & Hk & Hf).
      * eapply NoDup_remove_1. exact Hnd.
      * exact Hm.
      * exists ks. split; [apply sublist_cons, Hs|]. split; assumption.
    + pose proof (List.NoDup_remove_2 _ _ _ Hnd) as Hfresh.
      rewrite dict_set_fresh by (intros C; apply Hfresh, in_or_app; auto).
      destruct (IH (d ++ [(sector, p)])) as (ks & Hs & Hk & Hf).
      * rewrite map_app, <- app_assoc. exact Hnd.
      * apply List.Forall_app. split; [exact Hm|]. constructor; [exact Hp|constructor].
      * exists (sector :: ks). split; [apply sublist_skip, Hs|].
        split; [|exact Hf]. rewrite Hk, map_app, <- app_assoc. reflexivity.
Qed.

Lemma sector_analysis_keys :
  exists ks,
    sublist ks (map snd sector_etfs) /\
    map fst (analyze_sector_performance ta pd yf series_std) = ks /\
    Forall (fun e => momentum (snd e)
                     = (return_6mo (snd e) + sp_technical_score (snd e) * 0.5)%float)
      (analyze_sector_performance ta pd yf series_std).
Proof.
  unfold analyze_sector_performance.
  destruct (sector_loop_keys sector_etfs []) as (ks & Hs & Hk & Hf).
  - simpl. repeat constructor; simpl; intuition discriminate.
  - constructor.
  - exists ks. auto.
Qed.

Lemma sector_analysis_distinct :
  List.NoDup (map fst (analyze_sector_performance ta pd yf series_std)) /\
  (length (analyze_sector_performance ta pd yf series_std) <= 11)%nat.
Proof.
  destruct sector_analysis_keys as (ks & Hs & Hk & _).
  split.
  - rewrite Hk. apply (proj1 (NoDup_ListNoDup ks)).
    eapply sublist_NoDup; [|exact Hs].
    apply (proj2 (NoDup_ListNoDup _)).
    simpl. repeat constructor; simpl; intuition discriminate.
  - rewrite <- (length_map fst), Hk.
    apply sublist_length in Hs. simpl in Hs. exact Hs.
Qed.

End SectorFacts.

(** X19: the sector analysis holds at most one entry per sector: its keys
    are pairwise distinct, at most 11, and appear in the order of the
    [sector_etfs] table (sectors without data or whose analysis raised are
    left out); the momentum of every entry is its 6-month return plus half
    its technical score. *)
Theorem X19_sector_analysis_well_formed
    (ta : TA) (pd : Numerics) (yf : YFinance) (series_std : list float -> float) :
  let sector_analysis := analyze_sector_performance ta pd yf series_std in
  List.NoDup (map fst sector_analysis) /\
  (length sector_analysis <= 11)%nat /\
  sublist (map fst sector_analysis)
    ["Technology"; "Healthcare"; "Financial Services"; "Consumer Cyclical";
     "Industrials"; "Consumer Defensive"; "Energy"; "Basic Materials";
     "Real Estate"; "Communication Services"; "Utilities"] /\
  Forall (fun e => momentum (snd e)
                   = (return_6mo (snd e) + sp_technical_score (snd e) * 0.5)%float)
    sector_analysis.
Proof.
  intros sa. subst sa.
  destruct (sector_analysis_distinct ta pd yf series_std) as [Hnd Hlen].
  destruct (sector_analysis_keys ta pd yf series_std) as (ks & Hs & Hk & Hf).
  split; [exact Hnd|]. split; [exact Hlen|]. split; [|exact Hf].
  rewrite Hk. exact Hs.
Qed.

(** X20: whenever the sector analysis is not empty, the allocation that
    [generate_portfolio_recommendations] computes from it has one weight
    per analysed sector and these weights sum to 1 within 1e-9, exactly
    and in floats. *)
Theorem X20_allocation_of_sector_analysis_sums_to_one
    (ta : TA) (pd : Numerics) (yf : YFinance) (series_std : list float -> float)
    (top : list Analysis) :
  let sector_analysis := analyze_sector_performance ta pd yf series_std in
  sector_analysis <> [] ->
  let weights :=
    map snd (sector_allocation
               (generate_portfolio_recommendations pd top sector_analysis)) in
  length weights = length sector_analysis /\
  (exists q, exact_sum weights = Some q /\ (Qabs (q - 1) <= 1 # 1000000000)%Q) /\
  Py.le (abs (sum_floats weights - 1)) 1e-9 = true.
Proof.
  intros sa Hne weights. subst weights.
  destruct (sector_analysis_distinct ta pd yf series_std) as [Hnd Hlen].
  fold sa in Hnd, Hlen.
  destruct (sector_allocation_spec pd top sa Hnd) as [_ ->].
  assert (1 <= length sa <= 11)%nat as Hn.
  { destruct sa; [contradiction|]. simpl in *. lia. }
  pose proof weights_sum_to_one_ok as C.
  rewrite List.forallb_forall in C.
  assert (In (length sa) (seq 1 11)) as Hin by (apply List.in_seq; lia).
  specialize (C _ Hin). unfold weights_sum_to_one in C.
  apply andb_true_iff in C as [C1 C2].
  split; [|split].
  - unfold normalized_weights. now rewrite length_map, raw_weights_length.
  - destruct (exact_sum (normalized_weights (length sa))) as [q|]; [|discriminate].
    exists q. split; [reflexivity|]. apply Qle_bool_iff. exact C1.
  - exact C2.
Qed.

Lemma X20_witness :
  analyze_sector_performance ta_echo numerics_left_to_right yf_no_info
    (fun _ => 0%float) <> [] /\
  Py.le (abs (sum_floats
                (map snd (sector_allocation
                   (generate_portfolio_recommendations numerics_left_to_right []
                      (analyze_sector_performance ta_echo numerics_left_to_right
                         yf_no_info (fun _ => 0%float))))) - 1)) 1e-9 = true.
Proof.
  assert (analyze_sector_performance ta_echo numerics_left_to_right yf_no_info
            (fun _ => 0%float) <> []) as H
    by (vm_compute; discriminate).
  split; [exact H|].
  exact (proj2 (proj2 (X20_allocation_of_sector_analysis_sums_to_one
                         ta_echo numerics_left_to_right yf_no_info
                         (fun _ => 0%float) [] H))).
Defined.
